(** * ChunkGPT: a shallow embedding of [chunkgpt.Chunker]

    The development follows [src/chunkgpt/chunkgpt.py].  Python integers are
    [Z], Python strings are [string], token sequences are [list Z], the
    summary dictionary is a record whose ['chunks'] entry is an
    insertion-ordered association list, and Python floats (temperature,
    price, cost) are idealised as exact rationals [Q].

    The two external services, the OpenAI client and the tiktoken encoding,
    are not part of the repository: the client is an abstract state machine
    ([Client]) and the encoding a pair of functions ([Encoding]).  Effects
    (network requests, [time.sleep], [print]) are recorded in an event trace
    threaded through a state-and-exception monad. *)

From Stdlib Require Import ZArith QArith Bool List String Ascii DecimalString Lia.
From Stdlib Require Import Qring.
Import ListNotations.

Local Open Scope string_scope.
Local Open Scope Z_scope.

(** ** Python built-ins used by the module *)

Module Py.

(** [str(n)] for an integer. *)
Definition str (n : Z) : string := NilZero.string_of_int (Z.to_int n).

(** [len(l)]. *)
Definition len {A} (l : list A) : Z := Z.of_nat (List.length l).

(** Length of [range(start, stop, step)] for a non-zero [step], as CPython
    computes it. *)
Definition range_length (start stop step : Z) : Z :=
  if 0 <? step then
    if start <? stop then (stop - start - 1) / step + 1 else 0
  else
    if stop <? start then (start - stop - 1) / (- step) + 1 else 0.

(** [range(start, stop, step)] as the list it iterates over; [None] is the
    [ValueError] raised for a zero step. *)
Definition range (start stop step : Z) : option (list Z) :=
  if step =? 0 then None
  else Some (map (fun k => start + Z.of_nat k * step)
                 (seq 0 (Z.to_nat (range_length start stop step)))).

(** Normalisation of one slice bound against a sequence of length [n]:
    negative bounds count from the end, then the bound is clamped. *)
Definition clamp (n i : Z) : Z :=
  if i <? 0 then Z.max (i + n) 0 else Z.min i n.

(** [l[lo:hi]]. *)
Definition slice {A} (l : list A) (lo hi : Z) : list A :=
  let n := len l in
  let a := clamp n lo in
  let b := clamp n hi in
  firstn (Z.to_nat (b - a)) (skipn (Z.to_nat a) l).

(** [enumerate(l)]. *)
Definition enumerate {A} (l : list A) : list (Z * A) :=
  combine (map Z.of_nat (seq 0 (List.length l))) l.

(** [d[k] = v] on an insertion-ordered dictionary: an existing key keeps
    its position and takes the new value, a new key goes last. *)
Fixpoint dict_set {V} (d : list (Z * V)) (k : Z) (v : V) : list (Z * V) :=
  match d with
  | [] => [(k, v)]
  | (k', v') :: d' =>
      if k' =? k then (k', v) :: d' else (k', v') :: dict_set d' k v
  end.

Definition keys {V} (d : list (Z * V)) : list Z := map fst d.

End Py.

(** ** Module constants *)

Definition nl : string := String (ascii_of_nat 10) EmptyString.

Definition SYSTEM_MSG : string :=
  "You are SUMMIFY, a specialized AI assistant " ++
  "purpose-built to read long pieces of text and produce a concise " ++
  "summary that greatly reduces the overall length of the text " ++
  "without leaving out any critical details." ++ nl ++
  nl ++
  "Users will hand you an entire document, or just a portion of the " ++
  "document, and it is your job to summarize the content in as few " ++
  "words as possible, while conveying the essential meaning of the text." ++ nl ++
  nl ++
  "Your summary MUST paraphrase the document you are given so that " ++
  "it can directly replace the document 1-for-1, but with a shorter length." ++ nl ++
  nl ++
  "Your summary MUST be concise." ++ nl ++
  "Your summary MUST be comprehensive." ++ nl ++
  "Your summary MUST include a concise list of ALL KEY POINTS." ++ nl ++
  "Your summary MUST exclude any unnecessary fluff." ++ nl.

(** [USER_MSG.format(text)]: the template has a single replacement field. *)
Definition USER_MSG_format (text : string) : string :=
  nl ++ "TEXT EXCERPT:" ++ nl ++ text ++ nl ++ nl ++ "SUMMARY:" ++ nl.

(** ** Data *)

(** The tiktoken encoding object: [encode] and [decode]. *)
Record Encoding := mkEncoding {
  encode : string -> list Z;
  decode : list Z -> string
}.

(** The attributes [__init__] stores on a [Chunker]. *)
Record Chunker := mkChunker {
  model : string;
  api_key : string;
  max_chunk_length : Z;
  chunk_overlap : Z;
  summary_length : Z;
  temperature : Q;
  system_msg : string;
  encoding : Encoding;
  token_limit : Z;
  price_per_token : Q
}.

(** One entry of the message list sent to the chat endpoint. *)
Record Message := mkMessage {
  role : string;
  msg_content : string
}.

(** Keyword arguments of [openai.ChatCompletion.create]. *)
Record Request := mkRequest {
  req_model : string;
  req_temperature : Q;
  req_messages : list Message;
  req_max_tokens : Z
}.

(** What the module reads from a completion:
    [completion['choices'][0]['message']['content']] and
    [completion['usage']['total_tokens']]. *)
Record Completion := mkCompletion {
  content : string;
  usage_total_tokens : Z
}.

(** Value stored under [summary['chunks'][i+1]]. *)
Record ChunkEntry := mkChunkEntry {
  input : string;
  output : string
}.

(** The summary dictionary. *)
Record Summary := mkSummary {
  original : string;
  result : string;
  chunks : list (Z * ChunkEntry);
  intermediate_steps : list string;
  total_tokens : Z;
  cost : Q
}.

(** Python exceptions raised by the module. *)
Inductive Exn :=
| TypeError (msg : string)
| ValueError (msg : string)
| KeyError (msg : string).

(** The exception of the last branch of [summarize]. *)
Definition unrecognized_final_step (final_step : string) : Exn :=
  ValueError ("'final_step' option " ++ final_step ++
              " unrecognized. Expects 'summarize' or 'combine'").

(** The exception of [_get_completion] when no retry is left. *)
Definition unable_to_return_completion : Exn :=
  ValueError "Unable to return completion.".

(** ** Pure helper methods *)

Definition _tokenize (self : Chunker) (text : string) : list Z :=
  encode (encoding self) text.

Definition _decode (self : Chunker) (tokens : list Z) : string :=
  decode (encoding self) tokens.

Definition token_limit_of (model : string) : Z :=
  if String.prefix "gpt-3.5-turbo-16k" model then 16384
  else if String.prefix "gpt-4-32k" model then 32768
  else if String.prefix "gpt-4" model then 8192
  else 4096.

Definition _get_token_limit (self : Chunker) : Z := token_limit_of (model self).

Definition price_per_token_of (model : string) : Q :=
  if String.prefix "gpt-3.5-turbo-16k" model then 0.0003
  else if String.prefix "gpt-4-32k" model then 0.006
  else if String.prefix "gpt-4" model then 0.003
  else 0.00015.

Definition _get_price_per_token (self : Chunker) : Q :=
  price_per_token_of (model self).

Definition _get_complete_token_count (self : Chunker) (text : string) : Z :=
  let system_msg_token_cnt := Py.len (_tokenize self (system_msg self)) in
  let user_msg_token_cnt := Py.len (_tokenize self (USER_MSG_format text)) in
  let summary_token_cnt := summary_length self in
  system_msg_token_cnt + user_msg_token_cnt + summary_token_cnt.

Definition _get_base_token_count (self : Chunker) : Z :=
  let system_msg_token_cnt := Py.len (_tokenize self (system_msg self)) in
  let user_msg_token_cnt := Py.len (_tokenize self (USER_MSG_format "")) in
  system_msg_token_cnt + user_msg_token_cnt.

Definition _construct_messages (self : Chunker) (text : string) : list Message :=
  [ mkMessage "system" (system_msg self);
    mkMessage "user" (USER_MSG_format text) ].

(** The loop of [_chunk]: one decoded window per start index, appended in
    order. *)
Definition _chunk_loop (self : Chunker) (tokens : list Z) (starts : list Z)
  : list string :=
  fold_left
    (fun chunks i =>
       let start := i in
       let end_ := i + max_chunk_length self in
       let chunk_tokens := Py.slice tokens start end_ in
       let chunk := _decode self chunk_tokens in
       (chunks ++ [chunk])%list)
    starts [].

(** [_chunk]: [inr] is the exception [range] raises for a zero step. *)
Definition _chunk (self : Chunker) (text : string) : list string + Exn :=
  let total_cnt := _get_complete_token_count self text in
  if total_cnt <? token_limit self then inl [text]
  else
    let tokens := _tokenize self text in
    let chunk_step := max_chunk_length self - chunk_overlap self in
    match Py.range 0 (Py.len tokens) chunk_step with
    | None => inr (ValueError "range() arg 3 must not be zero")
    | Some starts => inl (_chunk_loop self tokens starts)
    end.

(** ** Effects *)

(** The OpenAI client as a state machine over an abstract service state:
    [Model_list] is [openai.Model.list()] reduced to the model ids, and
    [ChatCompletion_create] is [openai.ChatCompletion.create]; [inl] carries
    the text of the exception a failed call raises. *)
Record Client (World : Type) := mkClient {
  Model_list : World -> World * (string + list string);
  ChatCompletion_create : World -> Request -> World * (string + Completion)
}.
Arguments Model_list {World}.
Arguments ChatCompletion_create {World}.

(** Observable actions, in the order they happen. *)
Inductive Event :=
| EvListModels
| EvRequest (r : Request)
| EvSleep (seconds : Z)
| EvPrint (line : string).

Record State (World : Type) := mkState {
  world : World;
  trace : list Event
}.
Arguments mkState {World}.
Arguments world {World}.
Arguments trace {World}.

(** How a call ends: it returns, it raises, or the model ran out of fuel
    (only [summarize] consumes fuel). *)
Inductive Outcome (A : Type) :=
| Returned (a : A)
| Raised (e : Exn)
| OutOfFuel.
Arguments Returned {A}.
Arguments Raised {A}.
Arguments OutOfFuel {A}.

Definition M (World A : Type) : Type := State World -> State World * Outcome A.

Definition ret {W A} (a : A) : M W A := fun s => (s, Returned a).

Definition bind {W A B} (m : M W A) (k : A -> M W B) : M W B :=
  fun s =>
    match m s with
    | (s', Returned a) => k a s'
    | (s', Raised e) => (s', Raised e)
    | (s', OutOfFuel) => (s', OutOfFuel)
    end.

Definition raise {W A} (e : Exn) : M W A := fun s => (s, Raised e).

Definition emit {W} (e : Event) : M W unit :=
  fun s => (mkState (world s) (trace s ++ [e]), Returned tt).

Definition print {W} (line : string) : M W unit := emit (EvPrint line).

Definition sleep {W} (seconds : Z) : M W unit := emit (EvSleep seconds).

Declare Scope py_scope.
Delimit Scope py_scope with py.
Notation "x <- m ;; k" := (bind m (fun x => k))
  (at level 100, m at next level, right associativity) : py_scope.
Notation "m ;; k" := (bind m (fun _ => k))
  (at level 100, right associativity) : py_scope.

(** A [for] loop threading the variables its body assigns. *)
Fixpoint for_each {W A S} (l : list A) (body : A -> S -> M W S) (acc : S)
  : M W S :=
  match l with
  | [] => ret acc
  | x :: l' => bind (body x acc) (for_each l' body)
  end.

(** The chat requests of a trace, oldest first. *)
Fixpoint requests (t : list Event) : list Request :=
  match t with
  | [] => []
  | EvRequest r :: t' => r :: requests t'
  | _ :: t' => requests t'
  end.

(** ** The methods that talk to the service *)

Section Methods.

Context {World : Type}.
Variable client : Client World.

Local Open Scope py_scope.

Local Abbreviation M := (M World).

(** One [openai.ChatCompletion.create] call: the request is recorded and
    the service moves to its next state. *)
Definition create (req : Request) : M (string + Completion) :=
  fun s =>
    let (w', r) := ChatCompletion_create client (world s) req in
    (mkState w' (trace s ++ [EvRequest req]), Returned r).

Definition completion_request (self : Chunker) (text : string) : Request :=
  mkRequest (model self) (temperature self)
            (_construct_messages self text) (summary_length self).

(** [_get_completion], by recursion on the retries left. *)
Fixpoint _get_completion_from (retries : nat) (self : Chunker) (text : string)
  : M Completion :=
  r <- create (completion_request self text) ;;
  match r with
  | inr completion => ret completion
  | inl e =>
      print ("Completion failed: " ++ e) ;;
      match retries with
      | S retries' =>
          print "Retrying..." ;;
          sleep 1 ;;
          _get_completion_from retries' self text
      | O =>
          print "No more retries." ;;
          raise unable_to_return_completion
      end
  end.

Definition _get_completion (self : Chunker) (text : string) (num_retries : Z)
  : M Completion :=
  _get_completion_from (Z.to_nat num_retries) self text.

(** Body of the loop over [enumerate(chunks)]; the loop variables are
    [combined_summaries] and [summary]. *)
Definition summarize_chunk (self : Chunker) (ic : Z * string)
    (acc : string * Summary) : M (string * Summary) :=
  let '(i, chunk) := ic in
  let '(combined_summaries, summary) := acc in
  completion <- _get_completion self chunk 3 ;;
  let content := content completion in
  let combined_summaries := combined_summaries ++ (content ++ nl) in
  let chunks := Py.dict_set (chunks summary) (i + 1)
                            (mkChunkEntry chunk content) in
  let total_tokens' := usage_total_tokens completion in
  let total := total_tokens summary + total_tokens' in
  let cost := (cost summary + inject_Z total_tokens' * price_per_token self)%Q in
  let step := "Got completion for chunk " ++ Py.str (i + 1) ++ "." in
  let steps := (intermediate_steps summary ++ [step])%list in
  print step ;;
  ret (combined_summaries,
       mkSummary (original summary) (result summary) chunks steps total cost).

Definition lift_exn {A} (r : A + Exn) : M A :=
  match r with
  | inl a => ret a
  | inr e => raise e
  end.

(** Everything [summarize] does before it looks at [final_step]. *)
Definition summarize_chunks (self : Chunker) (text : string)
  : M (string * Summary) :=
  let summary := mkSummary text "" [] [] 0 0 in
  chunks <- lift_exn (_chunk self text) ;;
  (if 1 <? Py.len chunks
   then print ("Split text into " ++ Py.str (Py.len chunks) ++ " chunks.")
   else ret tt) ;;
  let combined_summaries := "" in
  for_each (Py.enumerate chunks) (summarize_chunk self)
           (combined_summaries, summary).

(** The branch on [final_step]; [self_summarize] is the method the
    recursive branch calls. *)
Definition summarize_final (self_summarize : string -> string -> M Summary)
    (self : Chunker) (final_step : string) (acc : string * Summary)
  : M Summary :=
  let '(combined_summaries, summary) := acc in
  let combined_token_cnt := _get_complete_token_count self combined_summaries in
  if (final_step =? "combine")%string then
    let content := combined_summaries in
    let step := "Returned combined summaries as final step." in
    print step ;;
    ret (mkSummary (original summary) content (chunks summary)
                   (intermediate_steps summary ++ [step])%list
                   (total_tokens summary) (cost summary))
  else if (final_step =? "summarize")%string
          && (token_limit self <=? combined_token_cnt) then
    reduced_summary <- self_summarize combined_summaries "summarize" ;;
    let new_token_cnt :=
      _get_complete_token_count self (result reduced_summary) in
    let step := "Reduced summary from " ++ Py.str combined_token_cnt ++
                " to " ++ Py.str new_token_cnt ++ "." in
    print step ;;
    ret (mkSummary (original summary) (result reduced_summary)
                   (chunks summary)
                   (intermediate_steps summary ++ [step])%list
                   (total_tokens summary + total_tokens reduced_summary)
                   (cost summary + cost reduced_summary)%Q)
  else if (final_step =? "summarize")%string then
    completion <- _get_completion self combined_summaries 3 ;;
    let content := content completion in
    let total_tokens' := usage_total_tokens completion in
    let step := "Got completion for combined summaries." in
    print step ;;
    ret (mkSummary (original summary) content (chunks summary)
                   (intermediate_steps summary ++ [step])%list
                   (total_tokens summary + total_tokens')
                   (cost summary
                    + inject_Z total_tokens' * price_per_token self)%Q)
  else
    raise (unrecognized_final_step final_step).

(** One activation of [summarize]. *)
Definition summarize_body (self_summarize : string -> string -> M Summary)
    (self : Chunker) (text final_step : string) : M Summary :=
  acc <- summarize_chunks self text ;;
  summarize_final self_summarize self final_step acc.

(** [summarize]: each activation uses one unit of fuel. *)
Fixpoint summarize (fuel : nat) (self : Chunker) (text final_step : string)
  : M Summary :=
  match fuel with
  | O => fun s => (s, OutOfFuel)
  | S fuel' =>
      summarize_body (fun t f => summarize fuel' self t f) self text final_step
  end.

End Methods.

(** ** Construction *)

Section Construction.

Context {World : Type}.
Variable client : Client World.

(** [tiktoken.encoding_for_model]: the encoding, or the exception it raises
    for a model it does not know. *)
Variable encoding_for_model : string -> Encoding + Exn.

(** [str] of a float, as the f-strings of the error messages print it. *)
Variable float_str : Q -> string.

Local Open Scope py_scope.

Local Abbreviation M := (M World).

(** [openai.Model.list()]. *)
Definition list_models : M (string + list string) :=
  fun s =>
    let (w', r) := Model_list client (world s) in
    (mkState w' (trace s ++ [EvListModels]), Returned r).

(** [Chunker.__init__].  The arguments are typed, so of the [isinstance]
    tests only the one on [api_key] can fail: its default is
    [os.getenv('OPENAI_API_KEY')], which is [None] when the variable is
    unset. *)
Definition __init__ (api_key : option string) (model : string)
    (max_chunk_length chunk_overlap summary_length : Z) (temperature : Q)
    (custom_system_msg : option string) : M Chunker :=
  match api_key with
  | None => raise (TypeError "invalid api_key 'None'; must be a string")
  | Some api_key =>
  r <- list_models ;;
  match r with
  | inl _ =>
      raise (ValueError ("Unable to access OpenAI's GPT model list; " ++
                         "ensure your API key (" ++ api_key ++ ") is correct"))
  | inr models =>
  if negb (existsb (String.eqb model) models) then
    raise (ValueError ("invalid model (" ++ model ++ "); model not found " ++
                       "in the list of available OpenAI models"))
  else if max_chunk_length <=? 0 then
    raise (ValueError ("invalid max_chunk_length (" ++ Py.str max_chunk_length ++
                       "); must be an integer greater than 0"))
  else if chunk_overlap <? 0 then
    raise (ValueError ("invalid chunk_overlap (" ++ Py.str chunk_overlap ++
                       "); must be an integer greater than or equal to 0"))
  else if max_chunk_length <? chunk_overlap then
    raise (ValueError ("invalid chunk_overlap (" ++ Py.str chunk_overlap ++
                       "); must be smaller than max_chunk_length (" ++
                       Py.str max_chunk_length ++ ")"))
  else if summary_length <=? 0 then
    raise (ValueError ("invalid summary_length (" ++ Py.str summary_length ++
                       "); must be an integer greater than 0"))
  else if negb (Qle_bool 0 temperature) || negb (Qle_bool temperature 2) then
    raise (ValueError ("invalid temperature (" ++ float_str temperature ++
                       "); must be a float bewteen 0 and 2 inclusive"))
  else
    let system_msg :=
      match custom_system_msg with
      | Some m => if (m =? "")%string then SYSTEM_MSG else m
      | None => SYSTEM_MSG
      end in
    match encoding_for_model model with
    | inr e => raise e
    | inl encoding =>
        let self := mkChunker model api_key max_chunk_length chunk_overlap
                              summary_length temperature system_msg encoding
                              (token_limit_of model) (price_per_token_of model) in
        let allowed_tokens :=
          _get_base_token_count self + summary_length + max_chunk_length in
        if token_limit self <? allowed_tokens then
          let exceeded_by := allowed_tokens - token_limit self in
          raise (ValueError ("Combined summary_length and max_chunk_length exceeds " ++
                             model ++ "'s token_limit by " ++ Py.str exceeded_by ++
                             " tokens. Reduce one or more of these parameters " ++
                             "or switch models."))
        else
          print "Initialized Chunker." ;;
          ret self
    end
  end
  end.

End Construction.

(** ** Test doubles

    A character-level encoding and a scripted client, used to run the
    methods on concrete inputs. *)

Module Double.

(** One token per character. *)
Definition char_encoding : Encoding :=
  mkEncoding
    (fun s => map (fun c => Z.of_nat (nat_of_ascii c)) (list_ascii_of_string s))
    (fun l => string_of_list_ascii (map (fun t => ascii_of_nat (Z.to_nat t)) l)).

Definition encoding_for_model (_ : string) : Encoding + Exn := inl char_encoding.

Definition float_str (_ : Q) : string := "?".

(** The service state is the list of answers still to give; once the script
    is used up every call fails. *)
Definition scripted : Client (list (string + Completion)) :=
  mkClient _
    (fun w => (w, inr ["gpt-3.5-turbo"; "gpt-4"]))
    (fun w _ =>
       match w with
       | [] => ([], inl "connection error")
       | r :: w' => (w', r)
       end).

Definition start (script : list (string + Completion))
  : State (list (string + Completion)) :=
  mkState script [].

(** [Chunker(api_key='sk', max_chunk_length=m, chunk_overlap=o,
    summary_length=l)] against the doubles. *)
Definition make (m o l : Z) : State _ * Outcome Chunker :=
  __init__ scripted encoding_for_model float_str
           (Some "sk") "gpt-3.5-turbo" m o l 0 None (start []).

(** The chunker such a construction returns. *)
Definition chunker (m o l : Z) : Chunker :=
  mkChunker "gpt-3.5-turbo" "sk" m o l 0 SYSTEM_MSG char_encoding 4096 0.00015.

Definition ok (text : string) (tokens : Z) : string + Completion :=
  inr (mkCompletion text tokens).

Definition failure : string + Completion := inl "timeout".

(** A text of 25 characters, hence of 25 tokens. *)
Definition alphabet25 : string := "abcdefghijklmnopqrstuvwxy".

(** [summary_length] 3336 is the largest the constructor accepts with
    [max_chunk_length] 10; the 25-token text then no longer fits. *)
Definition stride8 : Chunker := chunker 10 2 3336.

Definition stride2 : Chunker := chunker 10 8 3336.

Definition stride0 : Chunker := chunker 10 10 3336.

(** A text of 12 tokens: too long to fit [stride8], cut into two chunks. *)
Definition twelve : string := "abcdefghijkl".

(** Two failures, then an answer. *)
Definition retry_script : list (string + Completion) :=
  [failure; failure; ok "done" 7].

(** One answer per chunk of [twelve]. *)
Definition two_chunk_script : list (string + Completion) :=
  [ok "S1" 100; ok "S2" 50].

(** Two chunk summaries too long to fit together, the three chunk summaries
    of their concatenation, and the final summary. *)
Definition reduction_script : list (string + Completion) :=
  [ok "summary-1" 100; ok "summary-2" 50;
   ok "a" 10; ok "b" 10; ok "c" 10; ok "final" 30].

End Double.

(** ** Notions used in the statements *)

(** The start indices the loop of [_chunk] runs over. *)
Definition chunk_starts (self : Chunker) (text : string) : option (list Z) :=
  Py.range 0 (Py.len (_tokenize self text))
           (max_chunk_length self - chunk_overlap self).

(** The chunks obtained from a list of token windows [(start, end)]. *)
Definition decode_windows (self : Chunker) (tokens : list Z)
    (windows : list (Z * Z)) : list string :=
  map (fun w => _decode self (Py.slice tokens (fst w) (snd w))) windows.

(** Token index [j] lies in the window that starts at [start]. *)
Definition in_window (self : Chunker) (start j : Z) : Prop :=
  start <= j < start + max_chunk_length self.

(** Every token index below [n] lies in some window. *)
Definition covered (self : Chunker) (starts : list Z) (n : Z) : Prop :=
  forall j, 0 <= j < n -> exists i, In i starts /\ in_window self i j.

(** Every window starts inside the token list and is not empty. *)
Definition no_empty_window (self : Chunker) (tokens : list Z)
    (starts : list Z) : Prop :=
  forall i, In i starts ->
    0 <= i < Py.len tokens /\
    Py.slice tokens i (i + max_chunk_length self) <> [].

(** A token index shared by the windows at positions [k] and [k+1] lies in
    no window at any other position. *)
Definition overlap_in_exactly_two (self : Chunker) (starts : list Z) : Prop :=
  forall (k : nat) a b j,
    nth_error starts k = Some a -> nth_error starts (S k) = Some b ->
    in_window self a j -> in_window self b j ->
    forall (m : nat) c,
      nth_error starts m = Some c -> in_window self c j -> m = k \/ m = S k.

(** The service state after [k] consecutive failed attempts at [req], or
    [None] when one of these attempts succeeds. *)
Fixpoint after_failures {World} (client : Client World) (req : Request)
    (k : nat) (w : World) : option World :=
  match k with
  | O => Some w
  | S k' =>
      match ChatCompletion_create client w req with
      | (w', inl _) => after_failures client req k' w'
      | (_, inr _) => None
      end
  end.

(** The sleeps of a trace. *)
Fixpoint sleeps (t : list Event) : list Z :=
  match t with
  | [] => []
  | EvSleep n :: t' => n :: sleeps t'
  | _ :: t' => sleeps t'
  end.

(** The state after one more printed line. *)
Definition printed {World} (s : State World) (line : string) : State World :=
  mkState (world s) (trace s ++ [EvPrint line]).

(** What a summary under construction satisfies after [k] chunks, the list
    [done], have been processed. *)
Record Partial (self : Chunker) (text : string) (k : nat) (done : list string)
    (summary : Summary) : Prop := mkPartial {
  partial_original : original summary = text;
  partial_cost :
    (cost summary == inject_Z (total_tokens summary) * price_per_token self)%Q;
  partial_keys : Py.keys (chunks summary) = map Z.of_nat (seq 1 k);
  partial_inputs : map (fun e => input (snd e)) (chunks summary) = done
}.

(** The system message [__init__] stores: the custom one unless it is
    [None] or empty. *)
Definition system_msg_for (custom_system_msg : option string) : string :=
  match custom_system_msg with
  | Some m => if (m =? "")%string then SYSTEM_MSG else m
  | None => SYSTEM_MSG
  end.

(** The message of the budget check of [__init__]. *)
Definition budget_exceeded (model : string) (exceeded_by : Z) : Exn :=
  ValueError ("Combined summary_length and max_chunk_length exceeds " ++
              model ++ "'s token_limit by " ++ Py.str exceeded_by ++
              " tokens. Reduce one or more of these parameters " ++
              "or switch models.").

(** A service on which every chat request fails, in every state. *)
Definition always_fails {World} (client : Client World) : Prop :=
  forall w req, exists e, snd (ChatCompletion_create client w req) = inl e.

(** The chunk outputs of a chunk map, in order, each followed by a line
    break. *)
Fixpoint joined_outputs (d : list (Z * ChunkEntry)) : string :=
  match d with
  | [] => ""
  | e :: d' => output (snd e) ++ nl ++ joined_outputs d'
  end.

(** The log line of the loop of [summarize] for chunk number [k]. *)
Definition chunk_step_line (k : nat) : string :=
  "Got completion for chunk " ++ Py.str (Z.of_nat k) ++ ".".

(** [''.join(chunks)]. *)
Fixpoint join (l : list string) : string :=
  match l with
  | [] => ""
  | x :: l' => x ++ join l'
  end.

(** A service that refuses every chat request. *)
Definition dead_service : Client unit :=
  mkClient _
    (fun w => (w, inr ["gpt-3.5-turbo"; "gpt-4"]))
    (fun w _ => (w, inl "connection refused")).

(** A chunker without overlap, over the character encoding. *)
Definition no_overlap : Chunker := Double.chunker 10 0 3336.

(** A chat request built by [_get_completion] of this chunker, for some
    text. *)
Definition own_request (self : Chunker) (r : Request) : Prop :=
  exists text, r = completion_request self text.

(** ** Facts about the Python built-ins *)

Lemma range_Some start stop step :
  step <> 0 ->
  Py.range start stop step =
  Some (map (fun k => start + Z.of_nat k * step)
            (seq 0 (Z.to_nat (Py.range_length start stop step)))).
Proof.
  intros H. unfold Py.range.
  destruct (Z.eqb_spec step 0); [contradiction | reflexivity].
Qed.

Lemma range_length_lt n step (k : nat) :
  0 < step ->
  (k < Z.to_nat (Py.range_length 0 n step))%nat <-> Z.of_nat k * step < n.
Proof.
  intros Hs. unfold Py.range_length.
  destruct (Z.ltb_spec 0 step); [| lia].
  destruct (Z.ltb_spec 0 n).
  - replace (n - 0 - 1) with (n - 1) by lia.
    pose proof (Z.div_mod (n - 1) step ltac:(lia)) as Hd.
    pose proof (Z.mod_pos_bound (n - 1) step Hs) as Hm.
    assert (0 <= (n - 1) / step) by (apply Z.div_pos; lia).
    split; intros Hk.
    + assert (Z.of_nat k <= (n - 1) / step) by lia. nia.
    + assert (Z.of_nat k <= (n - 1) / step) by nia. lia.
  - simpl. split; intros Hk; [lia | nia].
Qed.

Lemma nth_error_map_seq {A} (f : nat -> A) (m k : nat) :
  nth_error (map f (seq 0 m)) k = if (k <? m)%nat then Some (f k) else None.
Proof.
  rewrite nth_error_map.
  destruct (Nat.ltb_spec k m) as [Hlt | Hge].
  - rewrite nth_error_nth' with (d := O) by (rewrite length_seq; exact Hlt).
    rewrite seq_nth by exact Hlt. reflexivity.
  - assert (E : nth_error (seq 0 m) k = None)
      by (apply nth_error_None; rewrite length_seq; exact Hge).
    rewrite E. reflexivity.
Qed.

(** The [k]-th start of [range(0, n, step)] is [k * step], and it exists
    exactly while it is below [n]. *)
Lemma range_nth_error n step starts (k : nat) a :
  0 < step ->
  Py.range 0 n step = Some starts ->
  nth_error starts k = Some a <-> a = Z.of_nat k * step /\ a < n.
Proof.
  intros Hs Hr. rewrite range_Some in Hr by lia.
  injection Hr as <-. rewrite nth_error_map_seq.
  pose proof (range_length_lt n step k Hs) as Hk.
  destruct (Nat.ltb_spec k (Z.to_nat (Py.range_length 0 n step))).
  - split.
    + intros [= <-]. split; [lia | apply Hk in H; lia].
    + intros [-> _]. f_equal; lia.
  - split; [discriminate |].
    intros [-> Hlt]. apply Hk in Hlt. lia.
Qed.

Lemma range_In n step starts a :
  0 < step ->
  Py.range 0 n step = Some starts ->
  In a starts <-> exists k : nat, a = Z.of_nat k * step /\ a < n.
Proof.
  intros Hs Hr. split.
  - intros Hin. apply In_nth_error in Hin as [k Hk].
    exists k. eapply range_nth_error; eauto.
  - intros [k Hk]. eapply nth_error_In.
    eapply range_nth_error; eauto.
Qed.

Lemma slice_nonempty {A} (l : list A) a m :
  0 <= a < Py.len l -> 0 < m -> Py.slice l a (a + m) <> [].
Proof.
  intros Ha Hm. unfold Py.slice, Py.clamp, Py.len in *.
  destruct (Z.ltb_spec a 0); [lia |].
  destruct (Z.ltb_spec (a + m) 0); [lia |].
  intros E. apply (f_equal (@List.length A)) in E.
  rewrite length_firstn, length_skipn in E. simpl in E. lia.
Qed.

Lemma chunk_loop_map self tokens starts :
  _chunk_loop self tokens starts =
  map (fun i => _decode self (Py.slice tokens i (i + max_chunk_length self)))
      starts.
Proof.
  unfold _chunk_loop.
  set (f := fun i => _decode self (Py.slice tokens i (i + max_chunk_length self))).
  assert (G : forall acc,
             fold_left (fun chunks i => (chunks ++ [f i])%list) starts acc
             = (acc ++ map f starts)%list).
  { induction starts as [| i starts IH]; intros acc; simpl.
    - now rewrite app_nil_r.
    - rewrite IH, <- app_assoc. reflexivity. }
  apply (G []).
Qed.

(** When the text does not fit, [_chunk] is the decoded windows over the
    starts of the loop, or the exception of a zero step. *)
Lemma chunk_unfit self text :
  token_limit self <= _get_complete_token_count self text ->
  _chunk self text =
  match chunk_starts self text with
  | Some starts =>
      inl (map (fun i => _decode self
                           (Py.slice (_tokenize self text) i
                                     (i + max_chunk_length self))) starts)
  | None => inr (ValueError "range() arg 3 must not be zero")
  end.
Proof.
  intros H. unfold _chunk, chunk_starts.
  destruct (Z.ltb_spec (_get_complete_token_count self text) (token_limit self));
    [lia |].
  destruct Py.range; [rewrite chunk_loop_map |]; reflexivity.
Qed.

(** ** The chunker *)

(** C5: a text whose complete token count is strictly below the token limit
    is returned as the only chunk, as it is: the result does not go through
    the encoding, whatever [encode] and [decode] the chunker holds. *)
Theorem chunk_fits self text :
  _get_complete_token_count self text < token_limit self ->
  _chunk self text = inl [text].
Proof.
  intros H. unfold _chunk.
  destruct (Z.ltb_spec (_get_complete_token_count self text) (token_limit self));
    [reflexivity | lia].
Qed.

Lemma chunk_fits_witness :
  _get_complete_token_count Double.stride8 "short" < token_limit Double.stride8 /\
  _chunk Double.stride8 "short" = inl ["short"].
Proof.
  split; [reflexivity | apply (chunk_fits Double.stride8 "short"); reflexivity].
Defined.

(** C6 (as the code has it): the complete token count is the token count of
    the system prompt plus that of the template wrapped around the text plus
    [summary_length]; measured against the base count it lacks the tokens of
    the template applied to the empty payload. *)
Theorem complete_count_from_base self text :
  _get_complete_token_count self text =
  _get_base_token_count self
  - Py.len (_tokenize self (USER_MSG_format ""))
  + Py.len (_tokenize self (USER_MSG_format text))
  + summary_length self.
Proof.
  unfold _get_complete_token_count, _get_base_token_count. lia.
Qed.

(** C6 as stated fails: with one token per character the count for ["hello"]
    is 4091, while base count + wrapped text + summary length is 4117. *)
Lemma complete_count_not_base_plus_wrapped :
  _get_complete_token_count Double.stride8 "hello" <>
  _get_base_token_count Double.stride8
  + Py.len (_tokenize Double.stride8 (USER_MSG_format "hello"))
  + summary_length Double.stride8.
Proof.
  vm_compute. discriminate.
Qed.

(** C1 (as the code has it): with [max_chunk_length] 10 and [chunk_overlap]
    2, a text of 25 tokens that does not fit is cut at the starts 0, 8, 16
    and 24, into four chunks over the token windows [0,10), [8,18), [16,25)
    and [24,25). *)
Theorem chunk_25_by_10_overlap_2 self text :
  max_chunk_length self = 10 ->
  chunk_overlap self = 2 ->
  Py.len (_tokenize self text) = 25 ->
  token_limit self <= _get_complete_token_count self text ->
  chunk_starts self text = Some [0; 8; 16; 24] /\
  _chunk self text =
  inl (decode_windows self (_tokenize self text)
                      [(0, 10); (8, 18); (16, 25); (24, 25)]).
Proof.
  intros Hm Ho Hl Hc.
  assert (Hs : chunk_starts self text = Some [0; 8; 16; 24]).
  { unfold chunk_starts. rewrite Hm, Ho, Hl. reflexivity. }
  split; [exact Hs |].
  rewrite chunk_unfit by exact Hc. rewrite Hs, Hm.
  unfold decode_windows. cbn [map fst snd].
  assert (E1 : Py.slice (_tokenize self text) 16 (16 + 10)
               = Py.slice (_tokenize self text) 16 25)
    by (unfold Py.slice; rewrite Hl; reflexivity).
  assert (E2 : Py.slice (_tokenize self text) 24 (24 + 10)
               = Py.slice (_tokenize self text) 24 25)
    by (unfold Py.slice; rewrite Hl; reflexivity).
  rewrite E1, E2. reflexivity.
Qed.

Lemma chunk_25_by_10_overlap_2_witness :
  max_chunk_length Double.stride8 = 10 /\
  chunk_overlap Double.stride8 = 2 /\
  Py.len (_tokenize Double.stride8 Double.alphabet25) = 25 /\
  token_limit Double.stride8
  <= _get_complete_token_count Double.stride8 Double.alphabet25 /\
  chunk_starts Double.stride8 Double.alphabet25 = Some [0; 8; 16; 24] /\
  _chunk Double.stride8 Double.alphabet25 =
  inl (decode_windows Double.stride8
         (_tokenize Double.stride8 Double.alphabet25)
         [(0, 10); (8, 18); (16, 25); (24, 25)]).
Proof.
  split; [reflexivity |]. split; [reflexivity |]. split; [reflexivity |].
  split; [vm_compute; discriminate |].
  apply (chunk_25_by_10_overlap_2 Double.stride8 Double.alphabet25);
    vm_compute; solve [reflexivity | discriminate].
Defined.

(** C1 as stated fails: the constructor accepts [max_chunk_length] 10 with
    [chunk_overlap] 2, the 25-token text does not fit, and [_chunk] returns
    four chunks, not the three over [0,10), [8,18), [16,25). *)
Lemma chunk_25_tokens_not_three_chunks :
  snd (Double.make 10 2 3336) = Returned Double.stride8 /\
  Py.len (_tokenize Double.stride8 Double.alphabet25) = 25 /\
  token_limit Double.stride8
  <= _get_complete_token_count Double.stride8 Double.alphabet25 /\
  _chunk Double.stride8 Double.alphabet25 =
  inl ["abcdefghij"; "ijklmnopqr"; "qrstuvwxy"; "y"] /\
  _chunk Double.stride8 Double.alphabet25 <>
  inl (decode_windows Double.stride8
         (_tokenize Double.stride8 Double.alphabet25)
         [(0, 10); (8, 18); (16, 25)]).
Proof.
  repeat split; try (vm_compute; solve [reflexivity | discriminate]).
Qed.

(** C2 (as the code has it): for a text that does not fit and a chunker with
    [0 <= chunk_overlap < max_chunk_length], the windows of [_chunk] cover
    every token index, none of them is empty (each starts below the token
    count), and, when the overlap is at most half the chunk length, a token
    shared by two consecutive windows lies in no third one. *)
Theorem chunk_windows_cover self text :
  0 <= chunk_overlap self < max_chunk_length self ->
  token_limit self <= _get_complete_token_count self text ->
  exists starts,
    chunk_starts self text = Some starts /\
    _chunk self text =
    inl (map (fun i => _decode self
                         (Py.slice (_tokenize self text) i
                                   (i + max_chunk_length self))) starts) /\
    covered self starts (Py.len (_tokenize self text)) /\
    no_empty_window self (_tokenize self text) starts /\
    (2 * chunk_overlap self <= max_chunk_length self ->
     overlap_in_exactly_two self starts).
Proof.
  intros Ho Hc.
  set (tokens := _tokenize self text).
  set (step := max_chunk_length self - chunk_overlap self).
  assert (Hstep : 0 < step) by (unfold step; lia).
  assert (Hr : chunk_starts self text
               = Py.range 0 (Py.len tokens) step) by reflexivity.
  destruct (Py.range 0 (Py.len tokens) step) as [starts |] eqn:Es;
    [| rewrite range_Some in Es by lia; discriminate].
  exists starts. split; [exact Hr |]. split.
  { rewrite chunk_unfit by exact Hc. rewrite Hr. reflexivity. }
  split; [| split].
  - intros j Hj.
    exists (Z.of_nat (Z.to_nat (j / step)) * step).
    pose proof (Z.div_mod j step ltac:(lia)) as Hd.
    pose proof (Z.mod_pos_bound j step Hstep) as Hmod.
    assert (0 <= j / step) by (apply Z.div_pos; lia).
    rewrite Z2Nat.id by lia.
    split.
    + apply (range_In _ _ _ _ Hstep Es).
      exists (Z.to_nat (j / step)). rewrite Z2Nat.id by lia. split; [reflexivity | nia].
    + unfold in_window. fold step in Hmod. unfold step in *. nia.
  - intros i Hi. apply (range_In _ _ _ _ Hstep Es) in Hi as [k [-> Hlt]].
    assert (Hk : 0 <= Z.of_nat k * step < Py.len tokens) by nia.
    split; [exact Hk | apply slice_nonempty; lia].
  - intros H2 k a b j Ha Hb Hja Hjb m c Hm Hjc.
    apply (range_nth_error _ _ _ _ _ Hstep Es) in Ha as [-> _].
    apply (range_nth_error _ _ _ _ _ Hstep Es) in Hb as [-> _].
    apply (range_nth_error _ _ _ _ _ Hstep Es) in Hm as [-> _].
    unfold in_window in *.
    assert (Hmax : max_chunk_length self <= 2 * step) by (unfold step; lia).
    destruct (Nat.lt_ge_cases m k) as [Hlt | Hge].
    + exfalso. assert (Z.of_nat m + 1 <= Z.of_nat k) by lia. nia.
    + destruct (Nat.lt_ge_cases (S k) m) as [Hgt | Hle]; [| lia].
      exfalso. assert (Z.of_nat k + 2 <= Z.of_nat m) by lia. nia.
Qed.

Lemma chunk_windows_cover_witness :
  0 <= chunk_overlap Double.stride8 < max_chunk_length Double.stride8 /\
  token_limit Double.stride8
  <= _get_complete_token_count Double.stride8 Double.alphabet25 /\
  exists starts,
    chunk_starts Double.stride8 Double.alphabet25 = Some starts /\
    _chunk Double.stride8 Double.alphabet25 =
    inl (map (fun i => _decode Double.stride8
                         (Py.slice (_tokenize Double.stride8 Double.alphabet25) i
                                   (i + max_chunk_length Double.stride8))) starts) /\
    covered Double.stride8 starts
            (Py.len (_tokenize Double.stride8 Double.alphabet25)) /\
    no_empty_window Double.stride8
                    (_tokenize Double.stride8 Double.alphabet25) starts /\
    (2 * chunk_overlap Double.stride8 <= max_chunk_length Double.stride8 ->
     overlap_in_exactly_two Double.stride8 starts).
Proof.
  split; [simpl; lia |]. split; [vm_compute; discriminate |].
  apply (chunk_windows_cover Double.stride8 Double.alphabet25).
  - simpl. lia.
  - vm_compute. discriminate.
Defined.

(** C2 as stated fails: with [max_chunk_length] 10 and [chunk_overlap] 8 the
    windows start every 2 tokens, and token 8, shared by the first two
    windows, also lies in the third. *)
Lemma overlap_token_in_three_windows :
  snd (Double.make 10 8 3336) = Returned Double.stride2 /\
  token_limit Double.stride2
  <= _get_complete_token_count Double.stride2 Double.alphabet25 /\
  chunk_starts Double.stride2 Double.alphabet25 =
  Some [0; 2; 4; 6; 8; 10; 12; 14; 16; 18; 20; 22; 24] /\
  ~ overlap_in_exactly_two Double.stride2
      [0; 2; 4; 6; 8; 10; 12; 14; 16; 18; 20; 22; 24].
Proof.
  split; [vm_compute; reflexivity |].
  split; [vm_compute; discriminate |].
  split; [vm_compute; reflexivity |].
  intros H.
  assert (W : forall c, 0 <= c <= 8 -> in_window Double.stride2 c 8)
    by (intros c Hc; unfold in_window; simpl; lia).
  destruct (H 0%nat 0 2 8 eq_refl eq_refl (W 0 ltac:(lia)) (W 2 ltac:(lia))
              2%nat 4 eq_refl (W 4 ltac:(lia))); discriminate.
Qed.

(** ** The constructor *)

(** What the constructor checks: a chunker it returns has a positive chunk
    length, an overlap between 0 and the chunk length, both ends included,
    and a budget within the token limit. *)
Lemma init_accepted {World} (client : Client World) enc_for fstr
    key mdl m o l t custom s s' self :
  __init__ client enc_for fstr key mdl m o l t custom s = (s', Returned self) ->
  max_chunk_length self = m /\ chunk_overlap self = o /\
  summary_length self = l /\
  0 < m /\ 0 <= o <= m /\ 0 < l /\
  _get_base_token_count self + l + m <= token_limit self.
Proof.
  unfold __init__, bind, list_models, raise, ret, print, emit.
  destruct key as [key |]; [| discriminate].
  destruct (Model_list client (world s)) as [w' [e | models]]; [discriminate |].
  destruct (negb (existsb (String.eqb mdl) models)); [discriminate |].
  destruct (Z.leb_spec m 0); [discriminate |].
  destruct (Z.ltb_spec o 0); [discriminate |].
  destruct (Z.ltb_spec m o); [discriminate |].
  destruct (Z.leb_spec l 0); [discriminate |].
  destruct (negb (Qle_bool 0 t) || negb (Qle_bool t 2)); [discriminate |].
  destruct (enc_for mdl) as [enc | e]; [| discriminate].
  match goal with |- context [if ?a <? ?b then _ else _] =>
    destruct (Z.ltb_spec a b) as [Hlt | Hge]; [discriminate |] end.
  intros [= _ <-]. simpl in *. repeat split; lia.
Qed.

(** C3, on the code: the test is [chunk_overlap > max_chunk_length], so an
    overlap equal to the chunk length is accepted; the chunker built that
    way has stride 0 and [_chunk] raises on any text that does not fit. *)
Theorem init_accepts_overlap_equal_to_chunk_length :
  snd (Double.make 10 10 3336) = Returned Double.stride0 /\
  chunk_overlap Double.stride0 = max_chunk_length Double.stride0 /\
  _chunk Double.stride0 Double.alphabet25 =
  inr (ValueError "range() arg 3 must not be zero").
Proof.
  repeat split; vm_compute; reflexivity.
Qed.

(** ** Completions and retries *)

Lemma requests_app t1 t2 : requests (t1 ++ t2) = (requests t1 ++ requests t2)%list.
Proof.
  induction t1 as [| [ | r | n | l] t1 IH]; simpl; rewrite ?IH; reflexivity.
Qed.

Lemma sleeps_app t1 t2 : sleeps (t1 ++ t2) = (sleeps t1 ++ sleeps t2)%list.
Proof.
  induction t1 as [| [ | r | n | l] t1 IH]; simpl; rewrite ?IH; reflexivity.
Qed.

Section Retries.

Context {World : Type}.
Variable client : Client World.

(** One attempt of [_get_completion]: the request goes out; a failure is
    printed and, while retries are left, followed by a sleep and the next
    attempt. *)
Lemma get_completion_from_eq n self text (s : State World) :
  _get_completion_from client n self text s =
  match ChatCompletion_create client (world s) (completion_request self text) with
  | (w', inr c) =>
      (mkState w' (trace s ++ [EvRequest (completion_request self text)]),
       Returned c)
  | (w', inl e) =>
      match n with
      | S n' =>
          _get_completion_from client n' self text
            (mkState w' (trace s ++
                         [EvRequest (completion_request self text);
                          EvPrint ("Completion failed: " ++ e);
                          EvPrint "Retrying..."; EvSleep 1]))
      | O =>
          (mkState w' (trace s ++
                       [EvRequest (completion_request self text);
                        EvPrint ("Completion failed: " ++ e);
                        EvPrint "No more retries."]),
           Raised unable_to_return_completion)
      end
  end.
Proof.
  destruct n; simpl; unfold bind, create, print, sleep, emit, raise, ret;
    destruct (ChatCompletion_create client (world s) (completion_request self text))
      as [w' [e | c]]; simpl; rewrite <- ?app_assoc; reflexivity.
Qed.

(** The method as the source writes it, on an integer [num_retries]. *)
Lemma get_completion_eq self text num_retries (s : State World) :
  _get_completion client self text num_retries s =
  match ChatCompletion_create client (world s) (completion_request self text) with
  | (w', inr c) =>
      (mkState w' (trace s ++ [EvRequest (completion_request self text)]),
       Returned c)
  | (w', inl e) =>
      if 0 <? num_retries then
        _get_completion client self text (num_retries - 1)
          (mkState w' (trace s ++
                       [EvRequest (completion_request self text);
                        EvPrint ("Completion failed: " ++ e);
                        EvPrint "Retrying..."; EvSleep 1]))
      else
        (mkState w' (trace s ++
                     [EvRequest (completion_request self text);
                      EvPrint ("Completion failed: " ++ e);
                      EvPrint "No more retries."]),
         Raised unable_to_return_completion)
  end.
Proof.
  unfold _get_completion. rewrite get_completion_from_eq.
  destruct (ChatCompletion_create client (world s) (completion_request self text))
    as [w' [e | c]]; [| reflexivity].
  destruct (Z.ltb_spec 0 num_retries).
  - replace (Z.to_nat num_retries) with (S (Z.to_nat (num_retries - 1))) by lia.
    reflexivity.
  - replace (Z.to_nat num_retries) with O by lia. reflexivity.
Qed.

(** [_get_completion] never runs out of fuel: it uses none. *)
Lemma get_completion_from_total n self text (s : State World) :
  snd (_get_completion_from client n self text s) <> OutOfFuel.
Proof.
  revert s. induction n as [| n IH]; intros s; rewrite get_completion_from_eq;
    destruct (ChatCompletion_create client (world s) (completion_request self text))
      as [w' [e | c]]; simpl; try discriminate.
  apply IH.
Qed.

(** The trace only grows, and every call sends at least one request. *)
Lemma get_completion_from_trace n self text (s : State World) :
  exists t, trace (fst (_get_completion_from client n self text s))
            = (trace s ++ t)%list /\
            (1 <= List.length (requests t))%nat.
Proof.
  revert s. induction n as [| n IH]; intros s; rewrite get_completion_from_eq;
    destruct (ChatCompletion_create client (world s) (completion_request self text))
      as [w' [e | c]]; cbn [fst trace];
    try (eexists; split; [reflexivity | simpl; lia]).
  destruct (IH (mkState w' (trace s ++
                       [EvRequest (completion_request self text);
                        EvPrint ("Completion failed: " ++ e);
                        EvPrint "Retrying..."; EvSleep 1]))) as [t [Ht Hn]].
  rewrite Ht. cbn [trace]. rewrite <- app_assoc.
  eexists. split; [reflexivity |].
  rewrite requests_app. simpl. lia.
Qed.

Lemma get_completion_from_succeeds k : forall n self text (s : State World) wk w' c,
  (k <= n)%nat ->
  after_failures client (completion_request self text) k (world s) = Some wk ->
  ChatCompletion_create client wk (completion_request self text) = (w', inr c) ->
  exists t,
    _get_completion_from client n self text s
    = (mkState w' (trace s ++ t), Returned c) /\
    requests t = repeat (completion_request self text) (S k) /\
    sleeps t = repeat 1 k.
Proof.
  induction k as [| k IH]; intros n self text s wk w' c Hk Ha Hc;
    rewrite get_completion_from_eq; simpl in Ha.
  - injection Ha as <-. rewrite Hc.
    eexists. split; [reflexivity |]. split; reflexivity.
  - destruct (ChatCompletion_create client (world s) (completion_request self text))
      as [w1 [e | c1]]; [| discriminate].
    destruct n as [| n]; [lia |].
    destruct (IH n self text
                 (mkState w1 (trace s ++
                       [EvRequest (completion_request self text);
                        EvPrint ("Completion failed: " ++ e);
                        EvPrint "Retrying..."; EvSleep 1]))
                 wk w' c ltac:(lia) Ha Hc) as [t [Hr [Hq Hs]]].
    rewrite Hr. simpl. rewrite <- app_assoc.
    eexists. split; [reflexivity |].
    rewrite requests_app, sleeps_app, Hq, Hs. split; reflexivity.
Qed.

Lemma get_completion_from_exhausted n : forall self text (s : State World),
  after_failures client (completion_request self text) (S n) (world s) <> None ->
  exists w' t,
    _get_completion_from client n self text s
    = (mkState w' (trace s ++ t), Raised unable_to_return_completion) /\
    requests t = repeat (completion_request self text) (S n) /\
    sleeps t = repeat 1 n.
Proof.
  induction n as [| n IH]; intros self text s Ha;
    rewrite get_completion_from_eq; simpl in Ha;
    destruct (ChatCompletion_create client (world s) (completion_request self text))
      as [w1 [e | c1]]; try congruence.
  - do 2 eexists. split; [reflexivity |]. split; reflexivity.
  - destruct (IH self text
                 (mkState w1 (trace s ++
                       [EvRequest (completion_request self text);
                        EvPrint ("Completion failed: " ++ e);
                        EvPrint "Retrying..."; EvSleep 1]))
                 Ha) as [w' [t [Hr [Hq Hs]]]].
    rewrite Hr. simpl. rewrite <- app_assoc.
    do 2 eexists. split; [reflexivity |].
    rewrite requests_app, sleeps_app, Hq, Hs. split; reflexivity.
Qed.

(** C7: with the default budget of 3 retries, a client that fails [k <= 3]
    times and then succeeds makes [_get_completion] return that completion
    after exactly [k + 1] requests (and [k] sleeps of one second); a client
    that fails at every attempt makes it raise the retry-exhausted error
    after exactly 4 requests. *)
Theorem get_completion_retry_bound self text (s : State World) :
  (forall (k : nat) wk w' c,
     (k <= 3)%nat ->
     after_failures client (completion_request self text) k (world s) = Some wk ->
     ChatCompletion_create client wk (completion_request self text) = (w', inr c) ->
     exists t,
       _get_completion client self text 3 s
       = (mkState w' (trace s ++ t), Returned c) /\
       requests t = repeat (completion_request self text) (k + 1) /\
       sleeps t = repeat 1 k) /\
  ((forall k : nat,
      after_failures client (completion_request self text) k (world s) <> None) ->
   exists w' t,
     _get_completion client self text 3 s
     = (mkState w' (trace s ++ t), Raised unable_to_return_completion) /\
     requests t = repeat (completion_request self text) 4 /\
     sleeps t = repeat 1 3).
Proof.
  split.
  - intros k wk w' c Hk Ha Hc. rewrite Nat.add_1_r.
    apply (get_completion_from_succeeds k 3 self text s wk w' c Hk Ha Hc).
  - intros Ha.
    apply (get_completion_from_exhausted 3 self text s (Ha 4%nat)).
Qed.

End Retries.

(** ** The reduction engine *)

Lemma dict_set_new {V} (d : list (Z * V)) k v :
  ~ In k (Py.keys d) -> Py.dict_set d k v = (d ++ [(k, v)])%list.
Proof.
  induction d as [| [k' v'] d IH]; simpl; intros Hn; [reflexivity |].
  destruct (Z.eqb_spec k' k) as [-> | _]; [tauto |].
  rewrite IH by tauto. reflexivity.
Qed.

Lemma string_app_assoc (a b c : string) : ((a ++ b) ++ c = a ++ (b ++ c))%string.
Proof.
  induction a as [| x a IH]; simpl; [reflexivity | now rewrite IH].
Qed.

Lemma keys_app {V} (d1 d2 : list (Z * V)) :
  Py.keys (d1 ++ d2) = (Py.keys d1 ++ Py.keys d2)%list.
Proof. apply map_app. Qed.

Lemma requests_printed {World} (s : State World) line :
  requests (trace (printed s line)) = requests (trace s).
Proof.
  unfold printed. cbn [trace]. rewrite requests_app. apply app_nil_r.
Qed.

Lemma cost_step (c p : Q) (n t : Z) :
  (c == inject_Z n * p)%Q ->
  (c + inject_Z t * p == inject_Z (n + t) * p)%Q.
Proof.
  intros H. rewrite H, inject_Z_plus. ring.
Qed.

Lemma cost_merge (c1 c2 p : Q) (n1 n2 : Z) :
  (c1 == inject_Z n1 * p)%Q -> (c2 == inject_Z n2 * p)%Q ->
  (c1 + c2 == inject_Z (n1 + n2) * p)%Q.
Proof.
  intros H1 H2. rewrite H1, H2, inject_Z_plus. ring.
Qed.

Arguments summarize_chunk : simpl never.
Arguments _get_completion : simpl never.
Arguments _get_complete_token_count : simpl never.

Section Reduction.

Context {World : Type}.
Variable client : Client World.

(** One pass of the loop body, in terms of the completion it requests. *)
Lemma summarize_chunk_eq self i chunk combined summary (s : State World) :
  summarize_chunk client self (i, chunk) (combined, summary) s =
  match _get_completion client self chunk 3 s with
  | (s1, Returned completion) =>
      (printed s1 ("Got completion for chunk " ++ Py.str (i + 1) ++ "."),
       Returned
         (combined ++ (content completion ++ nl),
          mkSummary (original summary) (result summary)
            (Py.dict_set (chunks summary) (i + 1)
                         (mkChunkEntry chunk (content completion)))
            (intermediate_steps summary ++
             [("Got completion for chunk " ++ Py.str (i + 1) ++ ".")%string])%list
            (total_tokens summary + usage_total_tokens completion)
            (cost summary
             + inject_Z (usage_total_tokens completion) * price_per_token self)%Q))
  | (s1, Raised e) => (s1, Raised e)
  | (s1, OutOfFuel) => (s1, OutOfFuel)
  end.
Proof.
  unfold summarize_chunk, bind.
  destruct (_get_completion client self chunk 3 s) as [s1 [c | e |]]; reflexivity.
Qed.

Lemma summarize_chunk_partial self text (k : nat) done chunk combined summary
    (s s' : State World) combined' summary' :
  List.length done = k ->
  Partial self text k done summary ->
  summarize_chunk client self (Z.of_nat k, chunk) (combined, summary) s
  = (s', Returned (combined', summary')) ->
  Partial self text (S k) (done ++ [chunk]) summary'.
Proof.
  intros Hlen [Ho Hc Hk Hi]. rewrite summarize_chunk_eq.
  destruct (_get_completion client self chunk 3 s) as [s1 [c | e |]];
    try discriminate.
  intros [= _ _ <-]. split; cbn [original cost total_tokens chunks].
  - exact Ho.
  - apply cost_step, Hc.
  - rewrite dict_set_new.
    + rewrite keys_app, Hk, seq_S, map_app. simpl. do 3 f_equal. lia.
    + rewrite Hk, in_map_iff. intros [x [Hx Hin]]. apply in_seq in Hin. lia.
  - rewrite dict_set_new.
    + rewrite map_app, Hi. reflexivity.
    + rewrite Hk, in_map_iff. intros [x [Hx Hin]]. apply in_seq in Hin. lia.
Qed.

(** The loop, started after [k] chunks, keeps the summary well formed. *)
Lemma loop_partial self text : forall l (k : nat) done acc (s s' : State World) acc',
  List.length done = k ->
  Partial self text k done (snd acc) ->
  for_each (combine (map Z.of_nat (seq k (List.length l))) l)
           (summarize_chunk client self) acc s = (s', Returned acc') ->
  Partial self text (k + List.length l) (done ++ l) (snd acc').
Proof.
  induction l as [| chunk l IH]; intros k done [combined summary] s s' acc' Hlen Hp.
  - simpl. unfold ret. intros [= _ <-].
    rewrite Nat.add_0_r, app_nil_r. exact Hp.
  - simpl. unfold bind at 1.
    destruct (summarize_chunk client self (Z.of_nat k, chunk) (combined, summary) s)
      as [s1 [[combined1 summary1] | e |]] eqn:E; try discriminate.
    intros Hrest.
    apply (summarize_chunk_partial self text k done chunk combined summary
             s s1 combined1 summary1 Hlen Hp) in E.
    apply (IH (S k) (done ++ [chunk])%list (combined1, summary1) s1 s' acc') in Hrest.
    + rewrite <- app_assoc in Hrest. simpl in Hrest.
      rewrite Nat.add_succ_r. exact Hrest.
    + rewrite length_app. simpl. lia.
    + exact E.
Qed.

(** A successful loop has sent at least one request per chunk. *)
Lemma loop_requests self : forall (l : list (Z * string)) acc (s s' : State World) acc',
  for_each l (summarize_chunk client self) acc s = (s', Returned acc') ->
  exists t, trace s' = (trace s ++ t)%list /\
            (List.length l <= List.length (requests t))%nat.
Proof.
  induction l as [| [i chunk] l IH]; intros [combined summary] s s' acc'.
  - simpl. unfold ret. intros [= <- _]. exists []. rewrite app_nil_r.
    split; [reflexivity | simpl; lia].
  - simpl. unfold bind at 1. rewrite summarize_chunk_eq.
    destruct (get_completion_from_trace client 3 self chunk s) as [t1 [Ht1 Hn1]].
    unfold _get_completion. change (Z.to_nat 3) with 3%nat.
    destruct (_get_completion_from client 3 self chunk s) as [s1 [c | e |]];
      try discriminate.
    intros Hrest. apply IH in Hrest as [t2 [Ht2 Hn2]].
    cbn [fst] in Ht1. rewrite Ht2. unfold printed. cbn [trace].
    rewrite Ht1, <- !app_assoc. eexists. split; [reflexivity |].
    rewrite !requests_app. rewrite !length_app. simpl. lia.
Qed.

(** The phase before the branch on [final_step]: what it returns and what it
    has sent. *)
Lemma summarize_chunks_returned self text (s s1 : State World) combined summary :
  summarize_chunks client self text s = (s1, Returned (combined, summary)) ->
  exists cs t,
    _chunk self text = inl cs /\
    Partial self text (List.length cs) cs summary /\
    trace s1 = (trace s ++ t)%list /\
    (List.length cs <= List.length (requests t))%nat.
Proof.
  unfold summarize_chunks, bind at 1, lift_exn.
  destruct (_chunk self text) as [cs | e]; [| discriminate].
  unfold ret at 1, bind at 1.
  set (s0 := fst ((if 1 <? Py.len cs
                   then print ("Split text into " ++ Py.str (Py.len cs) ++ " chunks.")
                   else ret tt) s)).
  assert (H0 : (if 1 <? Py.len cs
                then print ("Split text into " ++ Py.str (Py.len cs) ++ " chunks.")
                else ret tt) s = (s0, Returned tt))
    by (unfold s0; destruct (1 <? Py.len cs); reflexivity).
  assert (Ht0 : exists t0, trace s0 = (trace s ++ t0)%list /\ requests t0 = []).
  { unfold s0. destruct (1 <? Py.len cs); simpl.
    - eexists. split; reflexivity.
    - exists []. rewrite app_nil_r. split; reflexivity. }
  rewrite H0. clearbody s0. intros Hloop.
  exists cs. destruct Ht0 as [t0 [Ht0 Hq0]].
  destruct (loop_requests self _ _ _ _ _ Hloop) as [t [Ht Hn]].
  exists (t0 ++ t)%list. split; [reflexivity |]. split; [| split].
  - apply (loop_partial self text cs 0 [] _ s0 s1 (combined, summary) eq_refl)
      in Hloop; [exact Hloop |].
    split; simpl; try reflexivity.
  - rewrite Ht, Ht0, app_assoc. reflexivity.
  - rewrite requests_app, Hq0. simpl.
    unfold Py.enumerate in Hn. rewrite length_combine, length_map, length_seq in Hn.
    lia.
Qed.

(** The phase before the branch never runs out of fuel. *)
Lemma loop_total self : forall (l : list (Z * string)) acc (s : State World),
  snd (for_each l (summarize_chunk client self) acc s) <> OutOfFuel.
Proof.
  induction l as [| [i chunk] l IH]; intros [combined summary] s.
  - simpl. discriminate.
  - simpl. unfold bind at 1. rewrite summarize_chunk_eq.
    pose proof (get_completion_from_total client 3 self chunk s) as Hc.
    unfold _get_completion. change (Z.to_nat 3) with 3%nat.
    destruct (_get_completion_from client 3 self chunk s) as [s1 [c | e |]];
      simpl in *; [apply IH | discriminate | congruence].
Qed.

Lemma summarize_chunks_total self text (s : State World) :
  snd (summarize_chunks client self text s) <> OutOfFuel.
Proof.
  unfold summarize_chunks, bind at 1, lift_exn.
  destruct (_chunk self text) as [cs | e]; [| simpl; discriminate].
  unfold ret at 1, bind at 1.
  destruct (1 <? Py.len cs); simpl; apply loop_total.
Qed.

(** The three branches of the decision on [final_step]. *)
Lemma summarize_final_unrecognized rec self final_step acc (s : State World) :
  final_step <> "summarize" -> final_step <> "combine" ->
  summarize_final client rec self final_step acc s
  = (s, Raised (unrecognized_final_step final_step)).
Proof.
  intros Hs Hc. unfold summarize_final. destruct acc as [combined summary].
  destruct (String.eqb_spec final_step "combine"); [contradiction |].
  destruct (String.eqb_spec final_step "summarize"); [contradiction |].
  reflexivity.
Qed.

Lemma summarize_final_combine rec self combined summary (s : State World) :
  summarize_final client rec self "combine" (combined, summary) s
  = (printed s "Returned combined summaries as final step.",
     Returned
       (mkSummary (original summary) combined (chunks summary)
          (intermediate_steps summary ++
           ["Returned combined summaries as final step."])%list
          (total_tokens summary) (cost summary))).
Proof. reflexivity. Qed.

Lemma summarize_final_recurse rec self combined summary (s : State World) :
  token_limit self <= _get_complete_token_count self combined ->
  summarize_final client rec self "summarize" (combined, summary) s
  = match rec combined "summarize" s with
    | (s2, Returned reduced) =>
        (printed s2
           ("Reduced summary from "
            ++ Py.str (_get_complete_token_count self combined) ++ " to "
            ++ Py.str (_get_complete_token_count self (result reduced)) ++ "."),
         Returned
           (mkSummary (original summary) (result reduced) (chunks summary)
              (intermediate_steps summary ++
               [("Reduced summary from "
                 ++ Py.str (_get_complete_token_count self combined) ++ " to "
                 ++ Py.str (_get_complete_token_count self (result reduced))
                 ++ ".")%string])%list
              (total_tokens summary + total_tokens reduced)
              (cost summary + cost reduced)%Q))
    | (s2, Raised e) => (s2, Raised e)
    | (s2, OutOfFuel) => (s2, OutOfFuel)
    end.
Proof.
  intros H. unfold summarize_final.
  change ("summarize" =? "combine")%string with false.
  change ("summarize" =? "summarize")%string with true.
  destruct (Z.leb_spec (token_limit self) (_get_complete_token_count self combined));
    [| lia].
  cbn [andb]. unfold bind.
  destruct (rec combined "summarize" s) as [s2 [reduced | e |]]; reflexivity.
Qed.

Lemma summarize_final_fits rec self combined summary (s : State World) :
  _get_complete_token_count self combined < token_limit self ->
  summarize_final client rec self "summarize" (combined, summary) s
  = match _get_completion client self combined 3 s with
    | (s2, Returned completion) =>
        (printed s2 "Got completion for combined summaries.",
         Returned
           (mkSummary (original summary) (content completion) (chunks summary)
              (intermediate_steps summary ++
               ["Got completion for combined summaries."])%list
              (total_tokens summary + usage_total_tokens completion)
              (cost summary
               + inject_Z (usage_total_tokens completion)
                 * price_per_token self)%Q))
    | (s2, Raised e) => (s2, Raised e)
    | (s2, OutOfFuel) => (s2, OutOfFuel)
    end.
Proof.
  intros H. unfold summarize_final.
  change ("summarize" =? "combine")%string with false.
  change ("summarize" =? "summarize")%string with true.
  destruct (Z.leb_spec (token_limit self) (_get_complete_token_count self combined));
    [lia |].
  cbn [andb]. unfold bind.
  destruct (_get_completion client self combined 3 s) as [s2 [c | e |]];
    reflexivity.
Qed.

Lemma summarize_S fuel self text final_step (s : State World) :
  summarize client (S fuel) self text final_step s =
  match summarize_chunks client self text s with
  | (s1, Returned acc) =>
      summarize_final client (fun t f => summarize client fuel self t f)
                      self final_step acc s1
  | (s1, Raised e) => (s1, Raised e)
  | (s1, OutOfFuel) => (s1, OutOfFuel)
  end.
Proof. reflexivity. Qed.

(** C4 (as the code has it): with a [final_step] other than ['summarize']
    and ['combine'], [summarize] never returns a summary.  It first runs the
    whole chunk phase: when every chunk got its completion, at least one
    request per chunk has been sent by then, and only after that the
    unrecognized-[final_step] error is raised, with no further request; when
    the chunk phase raises, that exception is the outcome. *)
Theorem summarize_unrecognized_final_step fuel self text final_step
    (s : State World) :
  final_step <> "summarize" -> final_step <> "combine" ->
  (forall s' sm,
     summarize client (S fuel) self text final_step s <> (s', Returned sm)) /\
  (forall s1 acc,
     summarize_chunks client self text s = (s1, Returned acc) ->
     summarize client (S fuel) self text final_step s
     = (s1, Raised (unrecognized_final_step final_step)) /\
     exists cs t,
       _chunk self text = inl cs /\
       trace s1 = (trace s ++ t)%list /\
       (List.length cs <= List.length (requests t))%nat) /\
  (forall s1 e,
     summarize_chunks client self text s = (s1, Raised e) ->
     summarize client (S fuel) self text final_step s = (s1, Raised e)).
Proof.
  intros Hs Hc. rewrite summarize_S. repeat split.
  - intros s' sm.
    destruct (summarize_chunks client self text s) as [s1 [acc | e |]];
      try discriminate.
    rewrite summarize_final_unrecognized by assumption. discriminate.
  - rewrite H. apply summarize_final_unrecognized; assumption.
  - destruct acc as [combined summary].
    destruct (summarize_chunks_returned self text s s1 combined summary H)
      as [cs [t [Hcs [_ [Ht Hn]]]]].
    exists cs, t. auto.
  - intros s1 e H. rewrite H. reflexivity.
Qed.

(** C8: with [final_step='combine'] on a text cut into two chunks whose
    completions succeed, the result is the two outputs in chunk order, each
    followed by one line break; after the second chunk's completion only two
    lines are printed, so no request is made for the combined text; and
    [total_tokens] and [cost] are the sums over the two completions. *)
Theorem summarize_combine_two_chunks fuel self text c1 c2
    (s s1 s2 : State World) comp1 comp2 :
  _chunk self text = inl [c1; c2] ->
  _get_completion client self c1 3 (printed s "Split text into 2 chunks.")
  = (s1, Returned comp1) ->
  _get_completion client self c2 3 (printed s1 "Got completion for chunk 1.")
  = (s2, Returned comp2) ->
  exists sm,
    summarize client (S fuel) self text "combine" s
    = (printed (printed s2 "Got completion for chunk 2.")
               "Returned combined summaries as final step.",
       Returned sm) /\
    result sm = content comp1 ++ nl ++ content comp2 ++ nl /\
    chunks sm = [(1, mkChunkEntry c1 (content comp1));
                 (2, mkChunkEntry c2 (content comp2))] /\
    total_tokens sm = usage_total_tokens comp1 + usage_total_tokens comp2 /\
    cost sm = (0 + inject_Z (usage_total_tokens comp1) * price_per_token self
                 + inject_Z (usage_total_tokens comp2) * price_per_token self)%Q /\
    (cost sm == inject_Z (usage_total_tokens comp1 + usage_total_tokens comp2)
                * price_per_token self)%Q /\
    requests (trace (printed (printed s2 "Got completion for chunk 2.")
                             "Returned combined summaries as final step."))
    = requests (trace s2).
Proof.
  intros Hchunk H1 H2. rewrite summarize_S.
  assert (Hphase : summarize_chunks client self text s
            = (printed s2 "Got completion for chunk 2.",
               Returned
                 (content comp1 ++ nl ++ content comp2 ++ nl,
                  mkSummary text ""
                    [(1, mkChunkEntry c1 (content comp1));
                     (2, mkChunkEntry c2 (content comp2))]
                    ["Got completion for chunk 1."; "Got completion for chunk 2."]
                    (usage_total_tokens comp1 + usage_total_tokens comp2)
                    (0 + inject_Z (usage_total_tokens comp1) * price_per_token self
                     + inject_Z (usage_total_tokens comp2) * price_per_token self)%Q))).
  { unfold summarize_chunks, bind at 1, lift_exn. rewrite Hchunk.
    unfold ret at 1, bind at 1.
    change ((if 1 <? Py.len [c1; c2]
             then print ("Split text into " ++ Py.str (Py.len [c1; c2]) ++ " chunks.")
             else ret tt) s)
      with (printed s "Split text into 2 chunks.", @Returned unit tt).
    cbn [Py.enumerate List.length seq map combine for_each].
    unfold bind at 1. rewrite summarize_chunk_eq, H1.
    unfold bind at 1. rewrite summarize_chunk_eq.
    change (Py.str (Z.of_nat 0 + 1)) with "1".
    change ("Got completion for chunk " ++ "1" ++ ".") with "Got completion for chunk 1.".
    rewrite H2. unfold ret.
    change (Py.str (Z.of_nat 1 + 1)) with "2".
    cbn [String.append]. rewrite string_app_assoc. reflexivity. }
  rewrite Hphase, summarize_final_combine.
  eexists. split; [reflexivity |]. cbn [result chunks total_tokens cost].
  repeat split.
  - rewrite inject_Z_plus. ring.
  - rewrite !requests_printed. reflexivity.
Qed.

(** C9: with [final_step='summarize'], once the chunk phase has returned the
    concatenation [combined], the method calls itself exactly when the
    complete token count of [combined] is at least the token limit: one unit
    of fuel is used up exactly in that case, and the result is then the one
    of the call on [combined].  When [combined] fits, the outcome is the same
    for every amount of fuel and comes from a single [_get_completion] over
    [combined], whose content is the result. *)
Theorem summarize_recursion_iff self text (s s1 : State World) combined summary :
  summarize_chunks client self text s = (s1, Returned (combined, summary)) ->
  (snd (summarize client 1 self text "summarize" s) = OutOfFuel <->
   token_limit self <= _get_complete_token_count self combined) /\
  (token_limit self <= _get_complete_token_count self combined ->
   forall fuel s2 reduced,
     summarize client fuel self combined "summarize" s1 = (s2, Returned reduced) ->
     exists sm line,
       summarize client (S fuel) self text "summarize" s
       = (printed s2 line, Returned sm) /\
       result sm = result reduced /\
       total_tokens sm = total_tokens summary + total_tokens reduced) /\
  (_get_complete_token_count self combined < token_limit self ->
   (forall fuel,
      summarize client (S fuel) self text "summarize" s
      = summarize client 1 self text "summarize" s) /\
   (forall fuel s2 completion,
      _get_completion client self combined 3 s1 = (s2, Returned completion) ->
      exists sm,
        summarize client (S fuel) self text "summarize" s
        = (printed s2 "Got completion for combined summaries.", Returned sm) /\
        result sm = content completion /\
        total_tokens sm = total_tokens summary + usage_total_tokens completion)).
Proof.
  intros Hphase. split; [| split].
  - rewrite summarize_S, Hphase.
    destruct (Z.le_gt_cases (token_limit self)
                (_get_complete_token_count self combined)) as [Hge | Hlt].
    + rewrite summarize_final_recurse by exact Hge. simpl. tauto.
    + rewrite summarize_final_fits by lia.
      pose proof (get_completion_from_total client 3 self combined s1) as Ht.
      unfold _get_completion. change (Z.to_nat 3) with 3%nat.
      destruct (_get_completion_from client 3 self combined s1) as [s2 [c | e |]];
        simpl in *; split; intros; try discriminate; try congruence; lia.
  - intros Hge fuel s2 reduced Hrec.
    rewrite summarize_S, Hphase, summarize_final_recurse, Hrec by exact Hge.
    do 2 eexists. split; [reflexivity |]. split; reflexivity.
  - intros Hlt. split.
    + intros fuel. rewrite !summarize_S, Hphase, !summarize_final_fits by exact Hlt.
      reflexivity.
    + intros fuel s2 completion Hc.
      rewrite summarize_S, Hphase, summarize_final_fits, Hc by exact Hlt.
      eexists. split; [reflexivity |]. split; reflexivity.
Qed.

(** C10: a summary that [summarize] returns has [cost] equal to
    [total_tokens] times the price per token (in exact arithmetic), its
    ['original'] is the input text, and the keys of its chunk map are
    [1..n], in this order, for the [n] chunks of the text, each entry holding
    its chunk as input. *)
Theorem summarize_result_invariants fuel : forall self text final_step
    (s s' : State World) sm,
  summarize client fuel self text final_step s = (s', Returned sm) ->
  (cost sm == inject_Z (total_tokens sm) * price_per_token self)%Q /\
  original sm = text /\
  exists cs,
    _chunk self text = inl cs /\
    Py.keys (chunks sm) = map Z.of_nat (seq 1 (List.length cs)) /\
    map (fun e => input (snd e)) (chunks sm) = cs.
Proof.
  induction fuel as [| fuel IH]; intros self text final_step s s' sm;
    [discriminate |].
  rewrite summarize_S.
  destruct (summarize_chunks client self text s) as [s1 [[combined summary] | e |]]
    eqn:Hphase; try discriminate.
  destruct (summarize_chunks_returned self text s s1 combined summary Hphase)
    as [cs [t [Hcs [[Ho Hc Hk Hi] _]]]].
  assert (Hgoal : forall sm',
            original sm' = original summary ->
            chunks sm' = chunks summary ->
            (cost sm' == inject_Z (total_tokens sm') * price_per_token self)%Q ->
            (cost sm' == inject_Z (total_tokens sm') * price_per_token self)%Q /\
            original sm' = text /\
            exists cs0,
              inl cs = inl cs0 :> list string + Exn /\
              Py.keys (chunks sm') = map Z.of_nat (seq 1 (List.length cs0)) /\
              map (fun e => input (snd e)) (chunks sm') = cs0).
  { intros sm' E1 E2 E3. split; [exact E3 |]. split; [congruence |].
    exists cs. rewrite E2. auto. }
  rewrite Hcs.
  destruct (String.eqb_spec final_step "combine") as [-> | Hnc].
  { rewrite summarize_final_combine. intros [= _ <-]. apply Hgoal; auto. }
  destruct (String.eqb_spec final_step "summarize") as [-> | Hns].
  2: { rewrite summarize_final_unrecognized by assumption. discriminate. }
  destruct (Z.le_gt_cases (token_limit self)
              (_get_complete_token_count self combined)) as [Hge | Hlt].
  - rewrite summarize_final_recurse by exact Hge.
    destruct (summarize client fuel self combined "summarize" s1)
      as [s2 [reduced | e |]] eqn:Hrec; try discriminate.
    intros [= _ <-]. apply Hgoal; cbn [original chunks cost total_tokens]; auto.
    apply cost_merge; [exact Hc |].
    apply (IH self combined "summarize" s1 s2 reduced Hrec).
  - rewrite summarize_final_fits by lia.
    destruct (_get_completion client self combined 3 s1) as [s2 [c | e |]];
      try discriminate.
    intros [= _ <-]. apply Hgoal; cbn [original chunks cost total_tokens]; auto.
    apply cost_step, Hc.
Qed.

End Reduction.

(** ** Runs against the test doubles *)

Lemma scripted_empty_always_fails req (k : nat) :
  after_failures Double.scripted req k [] <> None.
Proof.
  induction k as [| k IH]; simpl; [discriminate | exact IH].
Qed.

Lemma get_completion_retry_bound_witness :
  (exists t,
     _get_completion Double.scripted Double.stride8 "short" 3
                     (Double.start Double.retry_script)
     = (mkState [] (trace (Double.start Double.retry_script) ++ t),
        Returned (mkCompletion "done" 7)) /\
     requests t = repeat (completion_request Double.stride8 "short") (2 + 1) /\
     sleeps t = repeat 1 2) /\
  (exists w' t,
     _get_completion Double.scripted Double.stride8 "short" 3 (Double.start [])
     = (mkState w' (trace (Double.start []) ++ t),
        Raised unable_to_return_completion) /\
     requests t = repeat (completion_request Double.stride8 "short") 4 /\
     sleeps t = repeat 1 3).
Proof.
  split.
  - apply (proj1 (get_completion_retry_bound Double.scripted Double.stride8
                    "short" (Double.start Double.retry_script))
                 2%nat [Double.ok "done" 7] [] (mkCompletion "done" 7)).
    + lia.
    + reflexivity.
    + reflexivity.
  - apply (proj2 (get_completion_retry_bound Double.scripted Double.stride8
                    "short" (Double.start []))).
    intros k. apply scripted_empty_always_fails.
Defined.

(** C4 as stated fails: with [final_step='bogus'] the error comes only after
    the completion request for the single chunk has been sent. *)
Lemma unrecognized_final_step_after_request :
  snd (summarize Double.scripted 1 Double.stride8 "short" "bogus"
                 (Double.start [Double.ok "sum" 5]))
  = Raised (unrecognized_final_step "bogus") /\
  requests (trace (fst (summarize Double.scripted 1 Double.stride8 "short" "bogus"
                                  (Double.start [Double.ok "sum" 5]))))
  = [completion_request Double.stride8 "short"].
Proof.
  split; vm_compute; reflexivity.
Qed.

Lemma summarize_unrecognized_final_step_witness :
  "bogus" <> "summarize" /\ "bogus" <> "combine" /\
  summarize_chunks Double.scripted Double.stride8 "short"
                   (Double.start [Double.ok "sum" 5])
  = (fst (summarize_chunks Double.scripted Double.stride8 "short"
                           (Double.start [Double.ok "sum" 5])),
     Returned ("sum" ++ nl,
               mkSummary "short" "" [(1, mkChunkEntry "short" "sum")]
                         ["Got completion for chunk 1."] 5
                         (0 + inject_Z 5 * 0.00015)%Q)) /\
  summarize Double.scripted 1 Double.stride8 "short" "bogus"
            (Double.start [Double.ok "sum" 5])
  = (fst (summarize_chunks Double.scripted Double.stride8 "short"
                           (Double.start [Double.ok "sum" 5])),
     Raised (unrecognized_final_step "bogus")).
Proof.
  split; [discriminate |]. split; [discriminate |].
  assert (H : summarize_chunks Double.scripted Double.stride8 "short"
                               (Double.start [Double.ok "sum" 5])
              = (fst (summarize_chunks Double.scripted Double.stride8 "short"
                                       (Double.start [Double.ok "sum" 5])),
                 Returned ("sum" ++ nl,
                           mkSummary "short" "" [(1, mkChunkEntry "short" "sum")]
                                     ["Got completion for chunk 1."] 5
                                     (0 + inject_Z 5 * 0.00015)%Q)))
    by (vm_compute; reflexivity).
  split; [exact H |].
  apply (proj1 (proj1 (proj2 (summarize_unrecognized_final_step
                                Double.scripted 0 Double.stride8 "short" "bogus"
                                (Double.start [Double.ok "sum" 5])
                                ltac:(discriminate) ltac:(discriminate)))
                      _ _ H)).
Defined.

Lemma summarize_combine_two_chunks_witness :
  _chunk Double.stride8 Double.twelve = inl ["abcdefghij"; "ijkl"] /\
  exists sm,
    snd (summarize Double.scripted 1 Double.stride8 Double.twelve "combine"
                   (Double.start Double.two_chunk_script))
    = Returned sm /\
    result sm = "S1" ++ nl ++ "S2" ++ nl /\
    total_tokens sm = 100 + 50 /\
    (cost sm == inject_Z (100 + 50) * price_per_token Double.stride8)%Q.
Proof.
  split; [reflexivity |].
  destruct (summarize_combine_two_chunks Double.scripted 0 Double.stride8
              Double.twelve "abcdefghij" "ijkl"
              (Double.start Double.two_chunk_script)
              (fst (_get_completion Double.scripted Double.stride8 "abcdefghij" 3
                      (printed (Double.start Double.two_chunk_script)
                               "Split text into 2 chunks.")))
              (fst (_get_completion Double.scripted Double.stride8 "ijkl" 3
                      (printed
                         (fst (_get_completion Double.scripted Double.stride8
                                 "abcdefghij" 3
                                 (printed (Double.start Double.two_chunk_script)
                                          "Split text into 2 chunks.")))
                         "Got completion for chunk 1.")))
              (mkCompletion "S1" 100) (mkCompletion "S2" 50)
              ltac:(reflexivity) ltac:(vm_compute; reflexivity)
              ltac:(vm_compute; reflexivity))
    as [sm [Hrun [Hres [_ [Htok [_ [Hcost _]]]]]]].
  exists sm. rewrite Hrun. repeat split; assumption.
Defined.

Lemma summarize_recursion_iff_witness :
  summarize_chunks Double.scripted Double.stride8 Double.twelve
                   (Double.start Double.reduction_script)
  = (fst (summarize_chunks Double.scripted Double.stride8 Double.twelve
                           (Double.start Double.reduction_script)),
     Returned ("summary-1" ++ nl ++ "summary-2" ++ nl,
               mkSummary Double.twelve ""
                 [(1, mkChunkEntry "abcdefghij" "summary-1");
                  (2, mkChunkEntry "ijkl" "summary-2")]
                 ["Got completion for chunk 1."; "Got completion for chunk 2."]
                 150 (0 + inject_Z 100 * 0.00015 + inject_Z 50 * 0.00015)%Q)) /\
  token_limit Double.stride8
  <= _get_complete_token_count Double.stride8
       ("summary-1" ++ nl ++ "summary-2" ++ nl) /\
  snd (summarize Double.scripted 1 Double.stride8 Double.twelve "summarize"
                 (Double.start Double.reduction_script)) = OutOfFuel.
Proof.
  assert (H : summarize_chunks Double.scripted Double.stride8 Double.twelve
                               (Double.start Double.reduction_script)
    = (fst (summarize_chunks Double.scripted Double.stride8 Double.twelve
                             (Double.start Double.reduction_script)),
       Returned ("summary-1" ++ nl ++ "summary-2" ++ nl,
                 mkSummary Double.twelve ""
                   [(1, mkChunkEntry "abcdefghij" "summary-1");
                    (2, mkChunkEntry "ijkl" "summary-2")]
                   ["Got completion for chunk 1."; "Got completion for chunk 2."]
                   150 (0 + inject_Z 100 * 0.00015 + inject_Z 50 * 0.00015)%Q)))
    by (vm_compute; reflexivity).
  assert (L : token_limit Double.stride8
              <= _get_complete_token_count Double.stride8
                   ("summary-1" ++ nl ++ "summary-2" ++ nl))
    by (vm_compute; discriminate).
  split; [exact H |]. split; [exact L |].
  apply (proj2 (proj1 (summarize_recursion_iff Double.scripted Double.stride8
                         Double.twelve _ _ _ _ H)) L).
Defined.

Lemma summarize_result_invariants_witness :
  exists s' sm,
    summarize Double.scripted 2 Double.stride8 Double.twelve "summarize"
              (Double.start Double.reduction_script) = (s', Returned sm) /\
    result sm = "final" /\
    total_tokens sm = 210 /\
    (cost sm == inject_Z (total_tokens sm) * price_per_token Double.stride8)%Q /\
    original sm = Double.twelve /\
    Py.keys (chunks sm) = [1; 2].
Proof.
  destruct (summarize Double.scripted 2 Double.stride8 Double.twelve "summarize"
                      (Double.start Double.reduction_script))
    as [s' [sm | e |]] eqn:H.
  - exists s', sm. split; [reflexivity |].
    destruct (summarize_result_invariants Double.scripted 2 Double.stride8
                Double.twelve "summarize" _ _ _ H)
      as [Hcost [Horig [cs [Hcs [Hkeys _]]]]].
    assert (Hsm : result sm = "final" /\ total_tokens sm = 210).
    { vm_compute in H. injection H as _ <-. split; reflexivity. }
    destruct Hsm as [Hres Htok].
    repeat split; try assumption.
    rewrite Hkeys. vm_compute in Hcs. injection Hcs as <-. reflexivity.
  - vm_compute in H. discriminate.
  - vm_compute in H. discriminate.
Defined.

(** ** More on the constructor *)



Lemma init_checks_pass {World} (client : Client World) mdl models m o l t :
  In mdl models -> 0 < m -> 0 <= o <= m -> 0 < l -> (0 <= t <= 2)%Q ->
  negb (existsb (String.eqb mdl) models) = false /\
  (m <=? 0) = false /\ (o <? 0) = false /\ (m <? o) = false /\
  (l <=? 0) = false /\
  negb (Qle_bool 0 t) || negb (Qle_bool t 2) = false.
Proof.
  intros Hin Hm Ho Hl [Ht0 Ht2].
  repeat split; try (apply Z.leb_gt; lia); try (apply Z.ltb_ge; lia).
  - apply negb_false_iff, existsb_exists. exists mdl.
    split; [exact Hin | apply String.eqb_refl].
  - apply Qle_bool_iff in Ht0. apply Qle_bool_iff in Ht2.
    rewrite Ht0, Ht2. reflexivity.
Qed.



(** X3: when everything else is in order but the base count plus
    [summary_length] plus [max_chunk_length] exceeds the model's limit,
    [__init__] raises the budget [ValueError], whose message gives the exact
    excess; the models were listed, nothing was printed. *)
Theorem init_rejects_over_budget {World} (client : Client World)
    enc_for fstr k mdl m o l t custom (s : State World) w' models enc :
  Model_list client (world s) = (w', inr models) ->
  In mdl models ->
  0 < m -> 0 <= o <= m -> 0 < l -> (0 <= t <= 2)%Q ->
  enc_for mdl = inl enc ->
  token_limit_of mdl
  < Py.len (encode enc (system_msg_for custom))
    + Py.len (encode enc (USER_MSG_format "")) + l + m ->
  __init__ client enc_for fstr (Some k) mdl m o l t custom s
  = (mkState w' (trace s ++ [EvListModels]),
     Raised (budget_exceeded mdl
               (Py.len (encode enc (system_msg_for custom))
                + Py.len (encode enc (USER_MSG_format "")) + l + m
                - token_limit_of mdl))).
Proof.
  intros Hl Hin Hm Ho Hsl Ht He Hb.
  destruct (init_checks_pass client mdl models m o l t Hin Hm Ho Hsl Ht)
    as [C1 [C2 [C3 [C4 [C5 C6]]]]].
  unfold __init__, bind, list_models, raise, ret, print, emit.
  rewrite Hl, C1, C2, C3, C4, C5, C6, He.
  fold (system_msg_for custom).
  unfold _get_base_token_count, _tokenize.
  cbn [system_msg encoding token_limit world trace].
  match goal with |- context [if ?a <? ?b then _ else _] =>
    destruct (Z.ltb_spec a b) as [Hlt | Hge]; [| lia] end.
  reflexivity.
Qed.

Lemma init_rejects_over_budget_witness :
  Double.make 10 2 3337
  = (mkState [] [EvListModels], Raised (budget_exceeded "gpt-3.5-turbo" 1)).
Proof.
  apply (init_rejects_over_budget Double.scripted
           Double.encoding_for_model Double.float_str "sk" "gpt-3.5-turbo"
           10 2 3337 0 None (Double.start []) []
           ["gpt-3.5-turbo"; "gpt-4"] Double.char_encoding).
  - reflexivity.
  - simpl. auto.
  - lia.
  - lia.
  - lia.
  - split; discriminate.
  - reflexivity.
  - vm_compute. reflexivity.
Defined.

(** ** More on limits, prices and chunking *)

Lemma prefix_split p : forall m,
  String.prefix p m = true -> exists rest, m = p ++ rest.
Proof.
  induction p as [| c p IH]; intros m.
  - exists m. reflexivity.
  - destruct m as [| c' m]; simpl; [discriminate |].
    destruct (ascii_dec c c') as [<- |]; [| discriminate].
    intros H. destruct (IH m H) as [rest ->]. exists rest. reflexivity.
Qed.

Lemma prefix_app p rest : String.prefix p (p ++ rest) = true.
Proof.
  induction p as [| c p IH]; simpl; [destruct rest; reflexivity |].
  destruct (ascii_dec c c); [exact IH | congruence].
Qed.

(** X4: the two tables agree on the model family, which the model name's
    prefix selects: [gpt-3.5-turbo-16k], then [gpt-4-32k], then [gpt-4]
    (the longer [gpt-4-32k] is tested first and wins), and any other name
    gets the smallest limit, 4096, with the lowest price. *)
Theorem model_family_limit_and_price m :
  (String.prefix "gpt-3.5-turbo-16k" m = true ->
   token_limit_of m = 16384 /\ price_per_token_of m = 0.0003%Q) /\
  (String.prefix "gpt-4-32k" m = true ->
   token_limit_of m = 32768 /\ price_per_token_of m = 0.006%Q) /\
  (String.prefix "gpt-4" m = true -> String.prefix "gpt-4-32k" m = false ->
   token_limit_of m = 8192 /\ price_per_token_of m = 0.003%Q) /\
  (String.prefix "gpt-3.5-turbo-16k" m = false -> String.prefix "gpt-4" m = false ->
   token_limit_of m = 4096 /\ price_per_token_of m = 0.00015%Q) /\
  4096 <= token_limit_of m.
Proof.
  assert (D1 : String.prefix "gpt-4" m = true ->
               String.prefix "gpt-3.5-turbo-16k" m = false).
  { intros H. apply prefix_split in H as [rest ->]. reflexivity. }
  assert (D2 : String.prefix "gpt-4-32k" m = true ->
               String.prefix "gpt-4" m = true).
  { intros H. apply prefix_split in H as [rest ->].
    apply (prefix_app "gpt-4" ("-32k" ++ rest)). }
  unfold token_limit_of, price_per_token_of.
  split; [| split; [| split; [| split]]].
  - intros H. rewrite H. split; reflexivity.
  - intros H. rewrite (D1 (D2 H)), H. split; reflexivity.
  - intros H H0. rewrite (D1 H), H0, H. split; reflexivity.
  - intros H H0. rewrite H, H0.
    destruct (String.prefix "gpt-4-32k" m); [| split; reflexivity].
    rewrite (D2 eq_refl) in H0. discriminate.
  - destruct (String.prefix "gpt-3.5-turbo-16k" m); [lia |].
    destruct (String.prefix "gpt-4-32k" m); [lia |].
    destruct (String.prefix "gpt-4" m); lia.
Qed.

Lemma model_family_limit_and_price_witness :
  (token_limit_of "gpt-3.5-turbo-16k-0613" = 16384 /\
   price_per_token_of "gpt-3.5-turbo-16k-0613" = 0.0003%Q) /\
  (token_limit_of "gpt-4-32k-0613" = 32768 /\
   price_per_token_of "gpt-4-32k-0613" = 0.006%Q) /\
  (token_limit_of "gpt-4-0613" = 8192 /\
   price_per_token_of "gpt-4-0613" = 0.003%Q) /\
  (token_limit_of "gpt-3.5-turbo" = 4096 /\
   price_per_token_of "gpt-3.5-turbo" = 0.00015%Q).
Proof.
  split; [| split; [| split]].
  - apply (proj1 (model_family_limit_and_price "gpt-3.5-turbo-16k-0613")).
    reflexivity.
  - apply (proj1 (proj2 (model_family_limit_and_price "gpt-4-32k-0613"))).
    reflexivity.
  - apply (proj1 (proj2 (proj2 (model_family_limit_and_price "gpt-4-0613"))));
      reflexivity.
  - apply (proj1 (proj2 (proj2 (proj2
             (model_family_limit_and_price "gpt-3.5-turbo")))));
      reflexivity.
Defined.

(** The length of [range(0, n, step)] is [n / step] rounded up. *)
Lemma range_length_ceil n step :
  0 <= n -> 0 < step ->
  Py.range_length 0 n step = (n + step - 1) / step.
Proof.
  intros Hn Hs. unfold Py.range_length.
  destruct (Z.ltb_spec 0 step); [| lia].
  destruct (Z.ltb_spec 0 n).
  - replace (n + step - 1) with (n - 0 - 1 + 1 * step) by lia.
    rewrite Z.div_add by lia. reflexivity.
  - replace n with 0 by lia. symmetry. apply Z.div_small. lia.
Qed.

Lemma slice_firstn_skipn {A} (l : list A) a m :
  0 <= a <= Py.len l -> 0 <= m ->
  Py.slice l a (a + m) = firstn (Z.to_nat m) (skipn (Z.to_nat a) l).
Proof.
  intros Ha Hm. unfold Py.slice, Py.clamp, Py.len in *.
  destruct (Z.ltb_spec a 0); [lia |].
  destruct (Z.ltb_spec (a + m) 0); [lia |].
  rewrite (Z.min_l a) by lia.
  destruct (Z.le_gt_cases (a + m) (Z.of_nat (List.length l))) as [Hle | Hgt].
  - rewrite Z.min_l by lia. f_equal. lia.
  - rewrite Z.min_r by lia.
    rewrite !firstn_all2; [reflexivity | |]; rewrite length_skipn; lia.
Qed.

Lemma slice_length {A} (l : list A) a m :
  0 <= a <= Py.len l -> 0 <= m ->
  Py.len (Py.slice l a (a + m)) = Z.min m (Py.len l - a).
Proof.
  intros Ha Hm. rewrite slice_firstn_skipn by assumption.
  unfold Py.len in *. rewrite length_firstn, length_skipn. lia.
Qed.

Lemma slice_whole {A} (l : list A) m :
  Py.len l <= m -> Py.slice l 0 (0 + m) = l.
Proof.
  intros H. pose proof (Nat2Z.is_nonneg (List.length l)) as Hn.
  unfold Py.len in *.
  rewrite slice_firstn_skipn by (unfold Py.len; lia).
  simpl. apply firstn_all2. lia.
Qed.

(** X5: for a text that does not fit and [0 <= chunk_overlap <
    max_chunk_length], [_chunk] returns the token count divided by the
    stride, rounded up, many chunks; chunk number [k] (from 0) is the decoded
    window that starts at [k * stride], and it holds [max_chunk_length]
    tokens, or what is left of the text from its start when that is less. *)
Theorem chunk_count_and_sizes self text :
  0 <= chunk_overlap self < max_chunk_length self ->
  token_limit self <= _get_complete_token_count self text ->
  exists count : nat,
    Z.of_nat count
    = (Py.len (_tokenize self text)
       + (max_chunk_length self - chunk_overlap self) - 1)
      / (max_chunk_length self - chunk_overlap self) /\
    _chunk self text
    = inl (map (fun k : nat =>
                  _decode self
                    (Py.slice (_tokenize self text)
                       (Z.of_nat k * (max_chunk_length self - chunk_overlap self))
                       (Z.of_nat k * (max_chunk_length self - chunk_overlap self)
                        + max_chunk_length self)))
               (seq 0 count)) /\
    forall k : nat, (k < count)%nat ->
      Py.len (Py.slice (_tokenize self text)
                (Z.of_nat k * (max_chunk_length self - chunk_overlap self))
                (Z.of_nat k * (max_chunk_length self - chunk_overlap self)
                 + max_chunk_length self))
      = Z.min (max_chunk_length self)
              (Py.len (_tokenize self text)
               - Z.of_nat k * (max_chunk_length self - chunk_overlap self)).
Proof.
  intros Ho Hc.
  set (tokens := _tokenize self text).
  set (step := max_chunk_length self - chunk_overlap self).
  assert (Hstep : 0 < step) by (unfold step; lia).
  assert (Hn : 0 <= Py.len tokens) by (unfold Py.len; lia).
  exists (Z.to_nat (Py.range_length 0 (Py.len tokens) step)).
  split; [| split].
  - rewrite range_length_ceil by assumption.
    apply Z2Nat.id. apply Z.div_pos; lia.
  - rewrite chunk_unfit by exact Hc. unfold chunk_starts.
    fold tokens step. rewrite range_Some by lia.
    rewrite map_map. reflexivity.
  - intros k Hk. apply (range_length_lt _ _ _ Hstep) in Hk.
    apply slice_length; nia.
Qed.

Lemma chunk_count_and_sizes_witness :
  0 <= chunk_overlap Double.stride8 < max_chunk_length Double.stride8 /\
  token_limit Double.stride8
  <= _get_complete_token_count Double.stride8 Double.alphabet25 /\
  exists count : nat,
    Z.of_nat count = (25 + (10 - 2) - 1) / (10 - 2) /\
    exists chunks, _chunk Double.stride8 Double.alphabet25 = inl chunks /\
                   List.length chunks = count.
Proof.
  assert (Ho : 0 <= chunk_overlap Double.stride8 < max_chunk_length Double.stride8)
    by (simpl; lia).
  assert (Hc : token_limit Double.stride8
               <= _get_complete_token_count Double.stride8 Double.alphabet25)
    by (vm_compute; discriminate).
  split; [exact Ho |]. split; [exact Hc |].
  destruct (chunk_count_and_sizes Double.stride8 Double.alphabet25 Ho Hc)
    as [count [Hcount [Hchunk _]]].
  exists count. split; [exact Hcount |].
  eexists. split; [exact Hchunk |].
  rewrite length_map, length_seq. reflexivity.
Defined.

(** X6: for a text that does not fit and a non-negative overlap: when its
    tokens number at most the stride, [_chunk] returns one chunk, the whole
    token list decoded; when they number more than the stride, it returns at
    least two chunks, also if they all fit in one window; when there is no
    token and the stride is not zero, it returns no chunk. *)
Theorem chunk_one_or_several self text :
  0 <= chunk_overlap self ->
  token_limit self <= _get_complete_token_count self text ->
  (0 < Py.len (_tokenize self text)
       <= max_chunk_length self - chunk_overlap self ->
   _chunk self text = inl [_decode self (_tokenize self text)]) /\
  (0 < max_chunk_length self - chunk_overlap self
       < Py.len (_tokenize self text) ->
   exists c1 c2 rest, _chunk self text = inl (c1 :: c2 :: rest)) /\
  (Py.len (_tokenize self text) = 0 ->
   max_chunk_length self <> chunk_overlap self ->
   _chunk self text = inl []).
Proof.
  intros Ho Hc.
  set (tokens := _tokenize self text).
  set (step := max_chunk_length self - chunk_overlap self).
  rewrite chunk_unfit by exact Hc. unfold chunk_starts. fold tokens step.
  split; [| split].
  - intros Hn. rewrite range_Some by lia.
    unfold Py.range_length.
    destruct (Z.ltb_spec 0 step); [| lia].
    destruct (Z.ltb_spec 0 (Py.len tokens)); [| lia].
    rewrite Z.div_small by lia.
    change (Z.to_nat (0 + 1)) with 1%nat. cbn [seq map].
    change (0 + Z.of_nat 0 * step) with 0.
    rewrite slice_whole by (unfold step in *; lia). reflexivity.
  - intros Hn. rewrite range_Some by lia.
    unfold Py.range_length.
    destruct (Z.ltb_spec 0 step); [| lia].
    destruct (Z.ltb_spec 0 (Py.len tokens)); [| lia].
    assert (H1 : 1 <= (Py.len tokens - 0 - 1) / step)
      by (apply Z.div_le_lower_bound; lia).
    destruct (Z.to_nat ((Py.len tokens - 0 - 1) / step + 1)) as [| [| c]] eqn:E;
      [lia | lia |].
    simpl. do 3 eexists. reflexivity.
  - intros Hn Hne. rewrite range_Some by (unfold step; lia).
    rewrite Hn. unfold Py.range_length.
    destruct (0 <? step); reflexivity.
Qed.

Lemma chunk_one_or_several_witness :
  0 <= chunk_overlap Double.stride8 /\
  token_limit Double.stride8
  <= _get_complete_token_count Double.stride8 Double.twelve /\
  0 < max_chunk_length Double.stride8 - chunk_overlap Double.stride8
    < Py.len (_tokenize Double.stride8 Double.twelve) /\
  exists c1 c2 rest, _chunk Double.stride8 Double.twelve = inl (c1 :: c2 :: rest).
Proof.
  split; [simpl; lia |]. split; [vm_compute; discriminate |].
  split; [split; reflexivity |].
  apply (proj1 (proj2 (chunk_one_or_several Double.stride8 Double.twelve
                         ltac:(simpl; lia) ltac:(vm_compute; discriminate)))).
  split; reflexivity.
Defined.

(** X7: [_chunk] raises exactly when the text does not fit and
    [chunk_overlap] equals [max_chunk_length]; the exception is then the
    [ValueError] of [range] for a zero step. *)
Theorem chunk_raises_iff self text e :
  _chunk self text = inr e <->
  token_limit self <= _get_complete_token_count self text /\
  chunk_overlap self = max_chunk_length self /\
  e = ValueError "range() arg 3 must not be zero".
Proof.
  unfold _chunk.
  destruct (Z.ltb_spec (_get_complete_token_count self text) (token_limit self)).
  - split; [discriminate | lia].
  - unfold Py.range.
    destruct (Z.eqb_spec (max_chunk_length self - chunk_overlap self) 0).
    + split.
      * intros [= <-]. repeat split; lia.
      * intros [_ [_ ->]]. reflexivity.
    + split; [discriminate | lia].
Qed.

(** ** More on completions and on the reduction engine *)

Lemma chunk_of_fitting self text :
  _get_complete_token_count self text < token_limit self ->
  _chunk self text = inl [text].
Proof.
  intros H. unfold _chunk.
  destruct (Z.ltb_spec (_get_complete_token_count self text) (token_limit self));
    [reflexivity | lia].
Qed.

Lemma chunk_zero_step self text :
  chunk_overlap self = max_chunk_length self ->
  token_limit self <= _get_complete_token_count self text ->
  _chunk self text = inr (ValueError "range() arg 3 must not be zero").
Proof.
  intros Ho Hc. rewrite chunk_unfit by exact Hc.
  unfold chunk_starts, Py.range. rewrite Ho, Z.sub_diag. reflexivity.
Qed.

Section Service.

Context {World : Type}.
Variable client : Client World.

Lemma get_completion_from_protocol n : forall self text (s : State World),
  exists w' t (m : nat),
    fst (_get_completion_from client n self text s)
    = mkState w' (trace s ++ t) /\
    requests t = repeat (completion_request self text) m /\
    sleeps t = repeat 1 (m - 1) /\
    (1 <= m <= S n)%nat /\
    ((exists c, snd (_get_completion_from client n self text s) = Returned c) \/
     (snd (_get_completion_from client n self text s)
      = Raised unable_to_return_completion /\ m = S n)).
Proof.
  induction n as [| n IH]; intros self text s; rewrite get_completion_from_eq;
    destruct (ChatCompletion_create client (world s) (completion_request self text))
      as [w1 [e | c]].
  - exists w1. eexists. exists 1%nat. cbn [fst snd].
    split; [reflexivity |]. repeat split; try lia. right. split; reflexivity.
  - exists w1. eexists. exists 1%nat. cbn [fst snd].
    split; [reflexivity |]. repeat split; try lia. left. eexists. reflexivity.
  - destruct (IH self text
                 (mkState w1 (trace s ++
                       [EvRequest (completion_request self text);
                        EvPrint ("Completion failed: " ++ e);
                        EvPrint "Retrying..."; EvSleep 1])))
      as [w' [t [m [Hf [Hq [Hs [Hm Ho]]]]]]].
    exists w'. eexists. exists (S m). rewrite Hf. cbn [trace].
    rewrite <- app_assoc. split; [reflexivity |].
    rewrite requests_app, sleeps_app, Hq, Hs.
    split; [reflexivity |]. split.
    { replace (S m - 1)%nat with (S (m - 1)) by lia. reflexivity. }
    split; [lia |].
    destruct Ho as [Ho | [Ho ->]]; [left; exact Ho | right; split; [exact Ho | reflexivity]].
  - exists w1. eexists. exists 1%nat. cbn [fst snd].
    split; [reflexivity |]. repeat split; try lia. left. eexists. reflexivity.
Qed.


Lemma always_fails_after req (k : nat) :
  always_fails client -> forall w, after_failures client req k w <> None.
Proof.
  intros Hf. induction k as [| k IH]; intros w; simpl; [discriminate |].
  destruct (Hf w req) as [e He].
  destruct (ChatCompletion_create client w req) as [w' r]. simpl in He. subst r.
  apply IH.
Qed.

(** X9: on a service where every chat request fails, [summarize] of a text
    with at least one chunk raises the retry-exhausted error, whatever
    [final_step] is, after exactly 4 requests, all for the first chunk: the
    other chunks are never sent. *)
Theorem summarize_dead_service fuel self text final_step c cs (s : State World) :
  always_fails client ->
  _chunk self text = inl (c :: cs) ->
  exists s',
    summarize client (S fuel) self text final_step s
    = (s', Raised unable_to_return_completion) /\
    requests (trace s')
    = (requests (trace s) ++ repeat (completion_request self c) 4)%list.
Proof.
  intros Hf Hchunk. rewrite summarize_S.
  unfold summarize_chunks, bind at 1, lift_exn. rewrite Hchunk.
  unfold ret at 1, bind at 1.
  set (s0 := fst ((if 1 <? Py.len (c :: cs)
                   then print ("Split text into " ++ Py.str (Py.len (c :: cs))
                               ++ " chunks.")
                   else ret tt) s)).
  assert (H0 : (if 1 <? Py.len (c :: cs)
                then print ("Split text into " ++ Py.str (Py.len (c :: cs))
                            ++ " chunks.")
                else ret tt) s = (s0, Returned tt))
    by (unfold s0; destruct (1 <? Py.len (c :: cs)); reflexivity).
  assert (Hq0 : requests (trace s0) = requests (trace s)).
  { unfold s0. destruct (1 <? Py.len (c :: cs)); simpl; [| reflexivity].
    rewrite requests_app. apply app_nil_r. }
  rewrite H0. clearbody s0.
  unfold Py.enumerate. cbn [List.length seq map combine for_each].
  unfold bind at 1. rewrite summarize_chunk_eq.
  unfold _get_completion. change (Z.to_nat 3) with 3%nat.
  destruct (get_completion_from_exhausted client 3 self c s0
              (always_fails_after _ 4 Hf (world s0))) as [w' [t [Hr [Hq _]]]].
  rewrite Hr. eexists. split; [reflexivity |].
  cbn [trace]. rewrite requests_app, Hq0, Hq. reflexivity.
Qed.

(** The branch on [final_step] calls the method again only for
    ['summarize']. *)
Lemma summarize_final_no_recursion rec rec' self final_step acc (s : State World) :
  final_step <> "summarize" ->
  summarize_final client rec self final_step acc s
  = summarize_final client rec' self final_step acc s.
Proof.
  intros Hn. unfold summarize_final. destruct acc as [combined summary].
  destruct (final_step =? "combine")%string; [reflexivity |].
  destruct (String.eqb_spec final_step "summarize"); [contradiction |].
  reflexivity.
Qed.

(** X10: with a [final_step] other than ['summarize'] (in particular with
    ['combine']) [summarize] never calls itself: its outcome is the same for
    every positive amount of fuel, and it is never the exhaustion of the
    fuel. *)
Theorem summarize_without_recursion fuel self text final_step (s : State World) :
  final_step <> "summarize" ->
  summarize client (S fuel) self text final_step s
  = summarize client 1 self text final_step s /\
  snd (summarize client (S fuel) self text final_step s) <> OutOfFuel.
Proof.
  intros Hn. rewrite !summarize_S.
  pose proof (summarize_chunks_total client self text s) as Ht.
  destruct (summarize_chunks client self text s) as [s1 [acc | e |]];
    cbn [snd] in *.
  - split; [apply summarize_final_no_recursion; exact Hn |].
    destruct acc as [combined summary].
    destruct (String.eqb_spec final_step "combine") as [-> | Hc].
    + rewrite summarize_final_combine. discriminate.
    + rewrite summarize_final_unrecognized by assumption. discriminate.
  - split; [reflexivity | discriminate].
  - congruence.
Qed.

(** X11: a chunker whose [chunk_overlap] equals its [max_chunk_length]
    cannot summarize a text that does not fit: [summarize] raises the
    [ValueError] of [range], whatever [final_step] is, before any request is
    sent and before anything is printed. *)
Theorem summarize_zero_stride fuel self text final_step (s : State World) :
  chunk_overlap self = max_chunk_length self ->
  token_limit self <= _get_complete_token_count self text ->
  summarize client (S fuel) self text final_step s
  = (s, Raised (ValueError "range() arg 3 must not be zero")).
Proof.
  intros Ho Hc. rewrite summarize_S.
  unfold summarize_chunks, bind at 1, lift_exn.
  rewrite (chunk_zero_step self text Ho Hc).
  reflexivity.
Qed.

(** X12: a text that fits is still summarized twice with
    [final_step='summarize']: its single chunk, the text itself, gets a
    completion, and when that output followed by a line break fits as well,
    a second completion over it gives the result; both usages are added
    up. *)
Theorem summarize_fitting_text fuel self text (s s1 s2 : State World) comp1 comp2 :
  _get_complete_token_count self text < token_limit self ->
  _get_completion client self text 3 s = (s1, Returned comp1) ->
  _get_complete_token_count self (content comp1 ++ nl) < token_limit self ->
  _get_completion client self (content comp1 ++ nl) 3
                  (printed s1 "Got completion for chunk 1.")
  = (s2, Returned comp2) ->
  exists sm,
    summarize client (S fuel) self text "summarize" s
    = (printed s2 "Got completion for combined summaries.", Returned sm) /\
    result sm = content comp2 /\
    chunks sm = [(1, mkChunkEntry text (content comp1))] /\
    total_tokens sm = usage_total_tokens comp1 + usage_total_tokens comp2 /\
    intermediate_steps sm
    = ["Got completion for chunk 1."; "Got completion for combined summaries."].
Proof.
  intros Hfit H1 Hfit2 H2. rewrite summarize_S.
  assert (Hphase : summarize_chunks client self text s
            = (printed s1 "Got completion for chunk 1.",
               Returned
                 (content comp1 ++ nl,
                  mkSummary text "" [(1, mkChunkEntry text (content comp1))]
                    ["Got completion for chunk 1."]
                    (usage_total_tokens comp1)
                    (0 + inject_Z (usage_total_tokens comp1)
                         * price_per_token self)%Q))).
  { unfold summarize_chunks, bind at 1, lift_exn.
    rewrite (chunk_of_fitting self text Hfit).
    unfold ret at 1, bind at 1.
    change ((if 1 <? Py.len [text]
             then print ("Split text into " ++ Py.str (Py.len [text]) ++ " chunks.")
             else ret tt) s)
      with (s, @Returned unit tt).
    cbn [Py.enumerate List.length seq map combine for_each].
    unfold bind at 1. rewrite summarize_chunk_eq, H1. reflexivity. }
  rewrite Hphase, summarize_final_fits, H2 by exact Hfit2.
  eexists. split; [reflexivity |]. repeat split.
Qed.

End Service.

(** ** The summary that [summarize] builds *)

Lemma string_app_nil_r (a : string) : (a ++ "")%string = a.
Proof.
  induction a as [| x a IH]; simpl; [reflexivity | now rewrite IH].
Qed.

Lemma joined_outputs_app d1 d2 :
  joined_outputs (d1 ++ d2) = (joined_outputs d1 ++ joined_outputs d2)%string.
Proof.
  induction d1 as [| e d1 IH]; simpl; [reflexivity |].
  rewrite IH, !string_app_assoc. reflexivity.
Qed.

Lemma sleeps_printed {World} (s : State World) line :
  sleeps (trace (printed s line)) = sleeps (trace s).
Proof.
  unfold printed. cbn [trace]. rewrite sleeps_app. apply app_nil_r.
Qed.

Section Log.

Context {World : Type}.
Variable client : Client World.

(** The loop keeps the concatenation equal to the recorded outputs and adds
    one log line per chunk. *)
Lemma loop_log self text : forall l (k : nat) done combined summary
    (s s' : State World) combined' summary',
  List.length done = k ->
  Partial self text k done summary ->
  combined = joined_outputs (chunks summary) ->
  intermediate_steps summary = map chunk_step_line (seq 1 k) ->
  for_each (combine (map Z.of_nat (seq k (List.length l))) l)
           (summarize_chunk client self) (combined, summary) s
  = (s', Returned (combined', summary')) ->
  combined' = joined_outputs (chunks summary') /\
  intermediate_steps summary'
  = map chunk_step_line (seq 1 (k + List.length l)) /\
  result summary' = result summary.
Proof.
  induction l as [| chunk l IH];
    intros k done combined summary s s' combined' summary' Hlen Hp Hj Hs.
  - simpl. unfold ret. intros [= _ <- <-]. rewrite Nat.add_0_r. auto.
  - simpl. unfold bind at 1.
    destruct (summarize_chunk client self (Z.of_nat k, chunk) (combined, summary) s)
      as [s1 [[combined1 summary1] | e |]] eqn:E; try discriminate.
    intros Hrest.
    pose proof (summarize_chunk_partial client self text k done chunk combined
                  summary s s1 combined1 summary1 Hlen Hp E) as Hp1.
    rewrite summarize_chunk_eq in E.
    destruct (_get_completion client self chunk 3 s) as [s0 [c | e |]];
      try discriminate.
    injection E as _ E1 E2.
    assert (Hnew : ~ In (Z.of_nat k + 1) (Py.keys (chunks summary))).
    { rewrite (partial_keys _ _ _ _ _ Hp), in_map_iff.
      intros [x [Hx Hin]]. apply in_seq in Hin. lia. }
    destruct (IH (S k) (done ++ [chunk])%list combined1 summary1 s1 s'
                 combined' summary') as [R1 [R2 R3]].
    + rewrite length_app. simpl. lia.
    + exact Hp1.
    + rewrite <- E1, <- E2. cbn [chunks]. rewrite dict_set_new by exact Hnew.
      rewrite joined_outputs_app, Hj. reflexivity.
    + rewrite <- E2. cbn [intermediate_steps]. rewrite Hs, seq_S, map_app.
      simpl. unfold chunk_step_line.
      replace (Z.of_nat (S k)) with (Z.of_nat k + 1) by lia. reflexivity.
    + exact Hrest.
    + split; [exact R1 |]. split.
      * rewrite R2. f_equal. f_equal. lia.
      * rewrite R3, <- E2. reflexivity.
Qed.

Lemma summarize_chunks_log self text (s s1 : State World) combined summary :
  summarize_chunks client self text s = (s1, Returned (combined, summary)) ->
  exists cs,
    _chunk self text = inl cs /\
    Partial self text (List.length cs) cs summary /\
    combined = joined_outputs (chunks summary) /\
    intermediate_steps summary = map chunk_step_line (seq 1 (List.length cs)) /\
    result summary = "".
Proof.
  intros H.
  destruct (summarize_chunks_returned client self text s s1 combined summary H)
    as [cs [t [Hcs [Hp _]]]].
  exists cs. split; [exact Hcs |]. split; [exact Hp |].
  revert H. unfold summarize_chunks, bind at 1, lift_exn. rewrite Hcs.
  unfold ret at 1, bind at 1.
  destruct ((if 1 <? Py.len cs
             then print ("Split text into " ++ Py.str (Py.len cs) ++ " chunks.")
             else ret tt) s) as [s0 [[] | e |]] eqn:E0;
    try (destruct (1 <? Py.len cs); discriminate).
  intros Hloop.
  apply (loop_log self text cs 0 [] "" _ s0 s1 combined summary eq_refl) in Hloop.
  - exact Hloop.
  - split; simpl; reflexivity.
  - reflexivity.
  - reflexivity.
Qed.

(** X13: a summary returned with [final_step='combine'] has as result the
    outputs recorded in its chunk map, in order, each followed by one line
    break; the inputs recorded there are the chunks of the text, and the log
    has one line per chunk, numbered from 1, then the line of the final
    step. *)
Theorem summarize_combine_joins fuel self text (s s' : State World) sm :
  summarize client (S fuel) self text "combine" s = (s', Returned sm) ->
  exists cs,
    _chunk self text = inl cs /\
    map (fun e => input (snd e)) (chunks sm) = cs /\
    result sm = joined_outputs (chunks sm) /\
    intermediate_steps sm
    = (map chunk_step_line (seq 1 (List.length cs))
       ++ ["Returned combined summaries as final step."])%list.
Proof.
  rewrite summarize_S.
  destruct (summarize_chunks client self text s) as [s1 [[combined summary] | e |]]
    eqn:Hphase; try discriminate.
  rewrite summarize_final_combine. intros [= _ <-].
  destruct (summarize_chunks_log self text s s1 combined summary Hphase)
    as [cs [Hcs [Hp [Hj [Hs _]]]]].
  exists cs. cbn [chunks result intermediate_steps].
  split; [exact Hcs |]. split; [exact (partial_inputs _ _ _ _ _ Hp) |].
  split; [exact Hj |]. rewrite Hs. reflexivity.
Qed.

(** A returned completion has cost between one and four requests, with a
    sleep of one second before each request but the first. *)
Lemma get_completion_returned_cost self text (s s1 : State World) c :
  _get_completion client self text 3 s = (s1, Returned c) ->
  exists t, trace s1 = (trace s ++ t)%list /\
            (1 <= List.length (requests t) <= 4)%nat /\
            sleeps t = repeat 1 (List.length (requests t) - 1).
Proof.
  intros H.
  destruct (get_completion_from_protocol client 3 self text s)
    as [w' [t [m [Hf [Hq [Hs [Hm _]]]]]]].
  unfold _get_completion in H. change (Z.to_nat 3) with 3%nat in H.
  rewrite H in Hf. cbn [fst] in Hf. exists t. rewrite Hf. cbn [trace].
  split; [reflexivity |]. rewrite Hq, Hs, !repeat_length. split; [lia | reflexivity].
Qed.

Lemma loop_cost self : forall (l : list (Z * string)) acc (s s' : State World) acc',
  for_each l (summarize_chunk client self) acc s = (s', Returned acc') ->
  exists t, trace s' = (trace s ++ t)%list /\
            (List.length l <= List.length (requests t) <= 4 * List.length l)%nat /\
            sleeps t = repeat 1 (List.length (requests t) - List.length l).
Proof.
  induction l as [| [i chunk] l IH]; intros [combined summary] s s' acc'.
  - simpl. unfold ret. intros [= <- _]. exists []. rewrite app_nil_r.
    split; [reflexivity |]. split; [simpl; lia | reflexivity].
  - simpl. unfold bind at 1. rewrite summarize_chunk_eq.
    destruct (_get_completion client self chunk 3 s) as [s1 [c | e |]] eqn:E;
      try discriminate.
    intros Hrest. apply IH in Hrest as [t2 [Ht2 [Hn2 Hs2]]].
    destruct (get_completion_returned_cost self chunk s s1 c E)
      as [t1 [Ht1 [Hn1 Hs1]]].
    rewrite Ht2. unfold printed. cbn [trace].
    rewrite Ht1, <- !app_assoc. eexists. split; [reflexivity |].
    rewrite !requests_app, !sleeps_app, !length_app, Hs1, Hs2.
    cbn [requests sleeps List.length app]. split; [lia |].
    rewrite <- repeat_app. f_equal. lia.
Qed.

(** X14: a [summarize] with [final_step='combine'] that returns has sent
    between [n] and [4 n] requests for the [n] chunks of the text, and has
    slept one second once for every request beyond those [n]. *)
Theorem summarize_combine_cost fuel self text (s s' : State World) sm :
  summarize client (S fuel) self text "combine" s = (s', Returned sm) ->
  exists cs t,
    _chunk self text = inl cs /\
    trace s' = (trace s ++ t)%list /\
    (List.length cs <= List.length (requests t) <= 4 * List.length cs)%nat /\
    sleeps t = repeat 1 (List.length (requests t) - List.length cs).
Proof.
  rewrite summarize_S.
  destruct (summarize_chunks client self text s) as [s1 [[combined summary] | e |]]
    eqn:Hphase; try discriminate.
  rewrite summarize_final_combine. intros [= <- _].
  revert Hphase. unfold summarize_chunks, bind at 1, lift_exn.
  destruct (_chunk self text) as [cs | e]; [| discriminate].
  unfold ret at 1, bind at 1.
  set (s0 := fst ((if 1 <? Py.len cs
                   then print ("Split text into " ++ Py.str (Py.len cs) ++ " chunks.")
                   else ret tt) s)).
  assert (H0 : (if 1 <? Py.len cs
                then print ("Split text into " ++ Py.str (Py.len cs) ++ " chunks.")
                else ret tt) s = (s0, Returned tt))
    by (unfold s0; destruct (1 <? Py.len cs); reflexivity).
  assert (Ht0 : exists t0, trace s0 = (trace s ++ t0)%list /\
                           requests t0 = [] /\ sleeps t0 = []).
  { unfold s0. destruct (1 <? Py.len cs); simpl.
    - eexists. split; [reflexivity |]. split; reflexivity.
    - exists []. rewrite app_nil_r. split; [reflexivity |]. split; reflexivity. }
  rewrite H0. clearbody s0. intros Hloop.
  destruct Ht0 as [t0 [Ht0 [Hq0 Hs0]]].
  apply loop_cost in Hloop as [t [Ht [Hn Hs]]].
  unfold Py.enumerate in Hn, Hs.
  rewrite length_combine, length_map, length_seq, Nat.min_id in Hn, Hs.
  exists cs, (t0 ++ t ++ [EvPrint "Returned combined summaries as final step."])%list.
  split; [reflexivity |]. split.
  { unfold printed. cbn [trace]. rewrite Ht, Ht0, <- !app_assoc. reflexivity. }
  rewrite !requests_app, !sleeps_app, Hq0, Hs0. cbn [requests sleeps app].
  rewrite !app_nil_r. split; [exact Hn | exact Hs].
Qed.

End Log.

(** ** Chunking without overlap *)

Lemma firstn_add_skipn {A} (a b : nat) : forall l : list A,
  firstn (a + b) l = (firstn a l ++ firstn b (skipn a l))%list.
Proof.
  induction a as [| a IH]; intros l; simpl; [reflexivity |].
  destruct l as [| x l]; simpl.
  - rewrite firstn_nil. reflexivity.
  - rewrite IH. reflexivity.
Qed.

Lemma concat_windows {A} (l : list A) (m : nat) : forall c : nat,
  List.concat (map (fun k => firstn m (skipn (k * m) l)) (seq 0 c))
  = firstn (c * m) l.
Proof.
  induction c as [| c IH]; [reflexivity |].
  rewrite seq_S, map_app, concat_app, IH. simpl.
  rewrite app_nil_r, <- firstn_add_skipn. f_equal. lia.
Qed.

Lemma join_map_decode dec (windows : list (list Z)) :
  (forall a b, dec (a ++ b)%list = (dec a ++ dec b)%string) ->
  dec [] = "" ->
  join (map dec windows) = dec (List.concat windows).
Proof.
  intros Happ Hnil. induction windows as [| w ws IH]; simpl.
  - symmetry. exact Hnil.
  - rewrite IH, Happ. reflexivity.
Qed.

(** X15: with [chunk_overlap = 0] the windows of [_chunk] cut the token list
    of a text that does not fit into consecutive pieces: put together in
    order they give the token list back.  When decoding distributes over
    concatenation, the chunks joined give the decoded token list, which is
    the text itself when the encoding round-trips on it. *)
Theorem chunk_zero_overlap_partition self text :
  chunk_overlap self = 0 ->
  0 < max_chunk_length self ->
  token_limit self <= _get_complete_token_count self text ->
  exists windows,
    _chunk self text = inl (map (_decode self) windows) /\
    List.concat windows = _tokenize self text /\
    ((forall a b, _decode self (a ++ b)%list
                  = (_decode self a ++ _decode self b)%string) ->
     _decode self [] = "" ->
     join (map (_decode self) windows) = _decode self (_tokenize self text)).
Proof.
  intros Ho Hm Hc.
  set (tokens := _tokenize self text).
  set (M := max_chunk_length self) in *.
  assert (Hn : 0 <= Py.len tokens) by (unfold Py.len; lia).
  set (count := Z.to_nat (Py.range_length 0 (Py.len tokens) M)).
  exists (map (fun k => firstn (Z.to_nat M) (skipn (k * Z.to_nat M) tokens))
              (seq 0 count)).
  assert (Hcat : List.concat (map (fun k => firstn (Z.to_nat M)
                                         (skipn (k * Z.to_nat M) tokens))
                             (seq 0 count)) = tokens).
  { rewrite concat_windows. apply firstn_all2.
    unfold count. rewrite range_length_ceil by lia.
    pose proof (Z.div_mod (Py.len tokens + M - 1) M ltac:(lia)) as Hd.
    pose proof (Z.mod_pos_bound (Py.len tokens + M - 1) M Hm) as Hb.
    assert (0 <= (Py.len tokens + M - 1) / M) by (apply Z.div_pos; lia).
    unfold Py.len in *. nia. }
  split; [| split].
  - rewrite chunk_unfit by exact Hc. unfold chunk_starts.
    fold tokens M. rewrite Ho, Z.sub_0_r, range_Some by lia.
    fold count. rewrite !map_map. f_equal. apply map_ext_in.
    intros k Hk. apply in_seq in Hk. f_equal.
    assert (Hlt : Z.of_nat k * M < Py.len tokens)
      by (apply (range_length_lt _ _ _ Hm); fold count; lia).
    change (0 + Z.of_nat k * M) with (Z.of_nat k * M).
    rewrite slice_firstn_skipn by nia.
    f_equal. f_equal. nia.
  - exact Hcat.
  - intros Happ Hnil. rewrite join_map_decode by assumption.
    rewrite Hcat. reflexivity.
Qed.

(** ** More runs against the test doubles *)

Lemma dead_service_always_fails : always_fails dead_service.
Proof.
  intros w req. exists "connection refused". reflexivity.
Qed.

Lemma summarize_dead_service_witness :
  always_fails dead_service /\
  _chunk Double.stride8 Double.twelve = inl ["abcdefghij"; "ijkl"] /\
  exists s',
    summarize dead_service 1 Double.stride8 Double.twelve "summarize"
              (mkState tt [])
    = (s', Raised unable_to_return_completion) /\
    requests (trace s')
    = (requests (trace (mkState tt []))
       ++ repeat (completion_request Double.stride8 "abcdefghij") 4)%list.
Proof.
  split; [exact dead_service_always_fails |]. split; [reflexivity |].
  apply (summarize_dead_service dead_service 0 Double.stride8 Double.twelve
           "summarize" "abcdefghij" ["ijkl"] (mkState tt [])
           dead_service_always_fails).
  reflexivity.
Defined.

Lemma summarize_without_recursion_witness :
  "combine" <> "summarize" /\
  summarize Double.scripted 5 Double.stride8 Double.twelve "combine"
            (Double.start Double.two_chunk_script)
  = summarize Double.scripted 1 Double.stride8 Double.twelve "combine"
              (Double.start Double.two_chunk_script).
Proof.
  split; [discriminate |].
  apply (proj1 (summarize_without_recursion Double.scripted 4 Double.stride8
                  Double.twelve "combine"
                  (Double.start Double.two_chunk_script) ltac:(discriminate))).
Defined.

Lemma summarize_zero_stride_witness :
  chunk_overlap Double.stride0 = max_chunk_length Double.stride0 /\
  token_limit Double.stride0
  <= _get_complete_token_count Double.stride0 Double.alphabet25 /\
  summarize Double.scripted 1 Double.stride0 Double.alphabet25 "summarize"
            (Double.start Double.two_chunk_script)
  = (Double.start Double.two_chunk_script,
     Raised (ValueError "range() arg 3 must not be zero")).
Proof.
  split; [reflexivity |]. split; [vm_compute; discriminate |].
  apply (summarize_zero_stride Double.scripted 0 Double.stride0
           Double.alphabet25 "summarize" (Double.start Double.two_chunk_script)).
  - reflexivity.
  - vm_compute. discriminate.
Defined.

Lemma summarize_fitting_text_witness :
  _get_complete_token_count Double.stride8 "short" < token_limit Double.stride8 /\
  _get_complete_token_count Double.stride8 ("sum" ++ nl)
  < token_limit Double.stride8 /\
  exists sm,
    snd (summarize Double.scripted 1 Double.stride8 "short" "summarize"
                   (Double.start [Double.ok "sum" 5; Double.ok "final" 9]))
    = Returned sm /\
    result sm = "final" /\
    total_tokens sm = 5 + 9.
Proof.
  split; [reflexivity |]. split; [reflexivity |].
  destruct (summarize_fitting_text Double.scripted 0 Double.stride8 "short"
              (Double.start [Double.ok "sum" 5; Double.ok "final" 9])
              (fst (_get_completion Double.scripted Double.stride8 "short" 3
                      (Double.start [Double.ok "sum" 5; Double.ok "final" 9])))
              (fst (_get_completion Double.scripted Double.stride8
                      ("sum" ++ nl) 3
                      (printed
                         (fst (_get_completion Double.scripted Double.stride8
                                 "short" 3
                                 (Double.start
                                    [Double.ok "sum" 5; Double.ok "final" 9])))
                         "Got completion for chunk 1.")))
              (mkCompletion "sum" 5) (mkCompletion "final" 9)
              ltac:(reflexivity) ltac:(vm_compute; reflexivity)
              ltac:(reflexivity) ltac:(vm_compute; reflexivity))
    as [sm [Hrun [Hres [_ [Htok _]]]]].
  exists sm. rewrite Hrun. repeat split; assumption.
Defined.

Lemma summarize_combine_joins_witness :
  exists s' sm,
    summarize Double.scripted 1 Double.stride8 Double.twelve "combine"
              (Double.start Double.two_chunk_script) = (s', Returned sm) /\
    result sm = joined_outputs (chunks sm) /\
    List.length (intermediate_steps sm) = 3%nat.
Proof.
  destruct (summarize Double.scripted 1 Double.stride8 Double.twelve "combine"
                      (Double.start Double.two_chunk_script))
    as [s' [sm | e |]] eqn:H.
  - exists s', sm. split; [reflexivity |].
    destruct (summarize_combine_joins Double.scripted 0 Double.stride8
                Double.twelve _ _ _ H) as [cs [Hcs [_ [Hres Hlog]]]].
    split; [exact Hres |].
    rewrite Hlog. vm_compute in Hcs. injection Hcs as <-. reflexivity.
  - vm_compute in H. discriminate.
  - vm_compute in H. discriminate.
Defined.

Lemma summarize_combine_cost_witness :
  exists s' sm cs t,
    summarize Double.scripted 1 Double.stride8 Double.twelve "combine"
              (Double.start Double.two_chunk_script) = (s', Returned sm) /\
    _chunk Double.stride8 Double.twelve = inl cs /\
    trace s' = (trace (Double.start Double.two_chunk_script) ++ t)%list /\
    (List.length cs <= List.length (requests t) <= 4 * List.length cs)%nat.
Proof.
  destruct (summarize Double.scripted 1 Double.stride8 Double.twelve "combine"
                      (Double.start Double.two_chunk_script))
    as [s' [sm | e |]] eqn:H.
  - destruct (summarize_combine_cost Double.scripted 0 Double.stride8
                Double.twelve _ _ _ H) as [cs [t [Hcs [Ht [Hn _]]]]].
    exists s', sm, cs, t. repeat split; try assumption; apply Hn.
  - vm_compute in H. discriminate.
  - vm_compute in H. discriminate.
Defined.

Lemma char_decode_app (a b : list Z) :
  decode Double.char_encoding (a ++ b)
  = (decode Double.char_encoding a ++ decode Double.char_encoding b)%string.
Proof.
  induction a as [| x a IH]; simpl; [reflexivity |].
  simpl in IH. rewrite IH. reflexivity.
Qed.

Lemma chunk_zero_overlap_partition_witness :
  chunk_overlap no_overlap = 0 /\
  0 < max_chunk_length no_overlap /\
  token_limit no_overlap
  <= _get_complete_token_count no_overlap Double.alphabet25 /\
  exists windows,
    _chunk no_overlap Double.alphabet25 = inl (map (_decode no_overlap) windows) /\
    List.concat windows = _tokenize no_overlap Double.alphabet25 /\
    join (map (_decode no_overlap) windows) = Double.alphabet25.
Proof.
  split; [reflexivity |]. split; [reflexivity |].
  split; [vm_compute; discriminate |].
  destruct (chunk_zero_overlap_partition no_overlap Double.alphabet25
              ltac:(reflexivity) ltac:(reflexivity)
              ltac:(vm_compute; discriminate))
    as [windows [Hchunk [Hcat Hjoin]]].
  exists windows. split; [exact Hchunk |]. split; [exact Hcat |].
  rewrite Hjoin; [reflexivity | exact char_decode_app | reflexivity].
Defined.

Lemma chunk_raises_iff_witness :
  token_limit Double.stride0
  <= _get_complete_token_count Double.stride0 Double.alphabet25 /\
  chunk_overlap Double.stride0 = max_chunk_length Double.stride0 /\
  _chunk Double.stride0 Double.alphabet25
  = inr (ValueError "range() arg 3 must not be zero").
Proof.
  assert (H : token_limit Double.stride0
              <= _get_complete_token_count Double.stride0 Double.alphabet25)
    by (vm_compute; discriminate).
  split; [exact H |]. split; [reflexivity |].
  apply (proj2 (chunk_raises_iff Double.stride0 Double.alphabet25 _)).
  split; [exact H |]. split; reflexivity.
Defined.

(** ** What [summarize] sends *)

Section Sent.

Context {World : Type}.
Variable client : Client World.

Lemma get_completion_sends_own self text (s : State World) :
  exists t,
    trace (fst (_get_completion client self text 3 s)) = (trace s ++ t)%list /\
    Forall (own_request self) (requests t).
Proof.
  destruct (get_completion_from_protocol client 3 self text s)
    as [w' [t [m [Hf [Hq _]]]]].
  unfold _get_completion. change (Z.to_nat 3) with 3%nat.
  exists t. rewrite Hf. split; [reflexivity |].
  rewrite Hq. apply Forall_forall. intros r Hr.
  apply repeat_spec in Hr. exists text. exact Hr.
Qed.

Lemma loop_sends_own self : forall (l : list (Z * string)) acc (s : State World),
  exists t,
    trace (fst (for_each l (summarize_chunk client self) acc s))
    = (trace s ++ t)%list /\
    Forall (own_request self) (requests t).
Proof.
  induction l as [| [i chunk] l IH]; intros [combined summary] s.
  - exists []. simpl. rewrite app_nil_r. split; [reflexivity | constructor].
  - simpl. unfold bind at 1. rewrite summarize_chunk_eq.
    destruct (get_completion_sends_own self chunk s) as [t1 [Ht1 Hq1]].
    destruct (_get_completion client self chunk 3 s) as [s1 [c | e |]];
      cbn [fst] in Ht1.
    + match goal with |- context [for_each l _ ?a ?s0] =>
        destruct (IH a s0) as [t2 [Ht2 Hq2]] end.
      rewrite Ht2. unfold printed. cbn [trace]. rewrite Ht1, <- !app_assoc.
      eexists. split; [reflexivity |].
      rewrite !requests_app. apply Forall_app. split; [exact Hq1 |].
      exact Hq2.
    + exists t1. split; [exact Ht1 | exact Hq1].
    + exists t1. split; [exact Ht1 | exact Hq1].
Qed.

Lemma summarize_chunks_sends_own self text (s : State World) :
  exists t,
    trace (fst (summarize_chunks client self text s)) = (trace s ++ t)%list /\
    Forall (own_request self) (requests t).
Proof.
  unfold summarize_chunks, bind at 1, lift_exn.
  destruct (_chunk self text) as [cs | e].
  - unfold ret at 1, bind at 1.
    destruct (1 <? Py.len cs).
    + unfold print, emit.
      match goal with |- context [for_each ?l _ ?a ?s0] =>
        destruct (loop_sends_own self l a s0) as [t [Ht Hq]] end.
      rewrite Ht. cbn [trace]. rewrite <- app_assoc.
      eexists. split; [reflexivity |]. rewrite requests_app. exact Hq.
    + unfold ret at 1. apply loop_sends_own.
  - exists []. simpl. rewrite app_nil_r. split; [reflexivity | constructor].
Qed.

(** X16: whatever the text, [final_step], the service and the depth of the
    recursion, and whether it returns or raises, [summarize] only adds to
    the trace, and every chat request it sends is one built by
    [_get_completion] for this chunker: to its model, with its temperature,
    its system message first and [max_tokens = summary_length]. *)
Theorem summarize_sends_own_requests fuel : forall self text final_step
    (s : State World),
  exists t,
    trace (fst (summarize client fuel self text final_step s))
    = (trace s ++ t)%list /\
    Forall (own_request self) (requests t) /\
    Forall (fun r => req_model r = model self /\
                     req_max_tokens r = summary_length self /\
                     req_temperature r = temperature self /\
                     exists user,
                       req_messages r
                       = [mkMessage "system" (system_msg self); user])
           (requests t).
Proof.
  assert (Hshape : forall self l,
            Forall (own_request self) l ->
            Forall (fun r => req_model r = model self /\
                             req_max_tokens r = summary_length self /\
                             req_temperature r = temperature self /\
                             exists user,
                               req_messages r
                               = [mkMessage "system" (system_msg self); user]) l).
  { intros self l H. eapply Forall_impl; [| exact H].
    intros r [x ->]. cbn. repeat split. eexists. reflexivity. }
  assert (Hmain : forall self text final_step (s : State World),
            exists t,
              trace (fst (summarize client fuel self text final_step s))
              = (trace s ++ t)%list /\
              Forall (own_request self) (requests t)).
  { induction fuel as [| fuel IH]; intros self text final_step s.
    - exists []. simpl. rewrite app_nil_r. split; [reflexivity | constructor].
    - rewrite summarize_S.
      destruct (summarize_chunks_sends_own self text s) as [t1 [Ht1 Hq1]].
      destruct (summarize_chunks client self text s)
        as [s1 [[combined summary] | e |]]; cbn [fst] in Ht1;
        [| exists t1; split; assumption | exists t1; split; assumption].
      destruct (String.eqb_spec final_step "combine") as [-> | Hnc].
      { rewrite summarize_final_combine. unfold printed. cbn [fst trace].
        rewrite Ht1, <- app_assoc. eexists. split; [reflexivity |].
        rewrite requests_app. apply Forall_app. split; [exact Hq1 | constructor]. }
      destruct (String.eqb_spec final_step "summarize") as [-> | Hns].
      2: { rewrite summarize_final_unrecognized by assumption.
           exists t1. split; assumption. }
      destruct (Z.le_gt_cases (token_limit self)
                  (_get_complete_token_count self combined)) as [Hge | Hlt].
      + rewrite summarize_final_recurse by exact Hge.
        destruct (IH self combined "summarize" s1) as [t2 [Ht2 Hq2]].
        destruct (summarize client fuel self combined "summarize" s1)
          as [s2 [reduced | e |]]; cbn [fst] in Ht2; unfold printed;
          cbn [fst trace]; rewrite Ht2, Ht1, <- !app_assoc;
          (eexists; split; [reflexivity |]);
          rewrite !requests_app; repeat (apply Forall_app; split);
          try assumption; constructor.
      + rewrite summarize_final_fits by lia.
        destruct (get_completion_sends_own self combined s1) as [t2 [Ht2 Hq2]].
        destruct (_get_completion client self combined 3 s1)
          as [s2 [c | e |]]; cbn [fst] in Ht2; unfold printed;
          cbn [fst trace]; rewrite Ht2, Ht1, <- !app_assoc;
          (eexists; split; [reflexivity |]);
          rewrite !requests_app; repeat (apply Forall_app; split);
          try assumption; constructor. }
  intros self text final_step s.
  destruct (Hmain self text final_step s) as [t [Ht Hq]].
  exists t. split; [exact Ht |]. split; [exact Hq | apply Hshape, Hq].
Qed.

(** X17: when [summarize] with [final_step='summarize'] returns and the
    outputs recorded in its chunk map, joined with line breaks, fit below
    the token limit, the last requests it sent, between one and four of
    them, are the completion request for exactly that joined text; the log
    ends with the line of the final completion, after one line per chunk. *)
Theorem summarize_final_prompt fuel self text (s s' : State World) sm :
  summarize client (S fuel) self text "summarize" s = (s', Returned sm) ->
  _get_complete_token_count self (joined_outputs (chunks sm)) < token_limit self ->
  exists cs t (m : nat),
    _chunk self text = inl cs /\
    requests (trace s')
    = (requests (trace s) ++ requests t
       ++ repeat (completion_request self (joined_outputs (chunks sm))) m)%list /\
    (List.length cs <= List.length (requests t))%nat /\
    (1 <= m <= 4)%nat /\
    intermediate_steps sm
    = (map chunk_step_line (seq 1 (List.length cs))
       ++ ["Got completion for combined summaries."])%list.
Proof.
  rewrite summarize_S.
  destruct (summarize_chunks client self text s) as [s1 [[combined summary] | e |]]
    eqn:Hphase; try discriminate.
  destruct (summarize_chunks_log client self text s s1 combined summary Hphase)
    as [cs [Hcs [_ [Hj [Hs _]]]]].
  destruct (summarize_chunks_returned client self text s s1 combined summary Hphase)
    as [cs' [t [Hcs' [_ [Ht Hn]]]]].
  assert (cs' = cs) by congruence. subst cs'.
  destruct (Z.le_gt_cases (token_limit self)
              (_get_complete_token_count self combined)) as [Hge | Hlt].
  - rewrite summarize_final_recurse by exact Hge.
    destruct (summarize client fuel self combined "summarize" s1)
      as [s2 [reduced | e |]]; try discriminate.
    intros [= _ <-]. cbn [chunks]. rewrite <- Hj. lia.
  - rewrite summarize_final_fits by lia.
    destruct (get_completion_from_protocol client 3 self combined s1)
      as [w' [t2 [m [Hf [Hq [_ [Hm _]]]]]]].
    unfold _get_completion. change (Z.to_nat 3) with 3%nat.
    destruct (_get_completion_from client 3 self combined s1)
      as [s2 [c | e |]]; try discriminate.
    cbn [fst] in Hf. intros [= <- <-] _.
    cbn [chunks intermediate_steps]. rewrite <- Hj.
    exists cs, t, m. split; [exact Hcs |].
    split; [| split; [exact Hn | split; [exact Hm |]]].
    + rewrite requests_printed, Hf. cbn [trace].
      rewrite requests_app, Ht, requests_app, Hq, <- app_assoc. reflexivity.
    + rewrite Hs. reflexivity.
Qed.

End Sent.

Lemma summarize_final_prompt_witness :
  exists s' sm m,
    summarize Double.scripted 1 Double.stride8 Double.twelve "summarize"
              (Double.start [Double.ok "S1" 100; Double.ok "S2" 50;
                             Double.ok "final" 30])
    = (s', Returned sm) /\
    _get_complete_token_count Double.stride8 (joined_outputs (chunks sm))
    < token_limit Double.stride8 /\
    (1 <= m <= 4)%nat /\
    exists t,
      requests (trace s')
      = (requests t
         ++ repeat (completion_request Double.stride8
                      (joined_outputs (chunks sm))) m)%list.
Proof.
  destruct (summarize Double.scripted 1 Double.stride8 Double.twelve "summarize"
              (Double.start [Double.ok "S1" 100; Double.ok "S2" 50;
                             Double.ok "final" 30]))
    as [s' [sm | e |]] eqn:H.
  - assert (Hfit : _get_complete_token_count Double.stride8
                     (joined_outputs (chunks sm)) < token_limit Double.stride8).
    { vm_compute in H. injection H as _ <-. reflexivity. }
    destruct (summarize_final_prompt Double.scripted 0 Double.stride8
                Double.twelve _ _ _ H Hfit)
      as [cs [t [m [_ [Hreq [_ [Hm _]]]]]]].
    exists s', sm, m. split; [reflexivity |]. split; [exact Hfit |].
    split; [exact Hm |]. exists t. exact Hreq.
  - vm_compute in H. discriminate.
  - vm_compute in H. discriminate.
Defined.
